(** * plug-proto: presentation-feedback monitor and timer helpers

    A shallow embedding of [src/cpp/wayland_presentation.cpp] and
    [src/cpp/timer.cpp], followed by the properties of the specification
    that concern them.

    Conventions.
    - [uint64_t], [uint32_t] and [uintptr_t] values are integers of [Z];
      the wrap-around of unsigned arithmetic is written out ([wrap64]).
    - a [void*] is the integer value of the address, [nullptr] being [0].
    - a member function is a function from the object before the call to
      the object after it (and the returned value, when there is one).
    - storage that the code reads without having written it (a local or a
      member left without initializer) is an argument of the function that
      declares it: the value found there.
    - [double] values are the binary64 numbers of [SpecFloat]
      ([prec = 53], [emax = 1024]). *)

From Stdlib Require Import ZArith List Bool Lia.
From Stdlib Require Import Floats.SpecFloat.
Import ListNotations.
Open Scope Z_scope.

(** ** Machine integers *)

Module Cpp.

Definition wrap64 (z : Z) : Z := z mod 2 ^ 64.

Definition is_uint64 (z : Z) : Prop := 0 <= z < 2 ^ 64.

Definition is_uint32 (z : Z) : Prop := 0 <= z < 2 ^ 32.

(** Contextual conversion of a pointer or an integer to [bool]. *)
Definition to_bool (z : Z) : bool := negb (z =? 0).

(** [x++] on a [std::atomic<uint64_t>]. *)
Definition incr64 (z : Z) : Z := wrap64 (z + 1).

End Cpp.

(** ** timer.cpp *)

Module Timer.

Definition prec : Z := 53.
Definition emax : Z := 1024.

(** Conversion of a [uint64_t] to [double], rounding to nearest even. *)
Definition uint64_to_double (n : Z) : spec_float :=
  binary_normalize prec emax n 0 false.

(** The literal [1000.0]. *)
Definition double_1000 : spec_float :=
  Eval cbv in binary_normalize prec emax 1000 0 false.

(** [end - start] on [uint64_t]. *)
Definition tick_diff (start end_ : Z) : Z := Cpp.wrap64 (end_ - start).

(** [double get_timer_diff_ms(uint64_t start, uint64_t end)]:
    [return (end - start) / 1000.0;] *)
Definition get_timer_diff_ms (start end_ : Z) : spec_float :=
  SFdiv prec emax (uint64_to_double (tick_diff start end_)) double_1000.

(** [uint64_t get_hardware_timer()]. [now] is what
    [high_resolution_clock::now().time_since_epoch()] holds: a count of
    nanoseconds in a signed 64-bit integer, as the clocks of libstdc++ and
    libc++ have it on Linux. [duration_cast<microseconds>] divides the
    count by 1000, truncating toward zero, and the [return] converts the
    signed result to [uint64_t]. *)
Definition get_hardware_timer (now : Z) : Z :=
  Cpp.wrap64 (Z.quot now 1000).



End Timer.

(** ** wayland_presentation.cpp *)

Module Wayland.

(** [struct PresentationFeedback] *)
Record PresentationFeedback : Type := mkFeedback {
  timestamp_ns : Z;   (* uint64_t *)
  sequence : Z;       (* uint64_t *)
  refresh_ns : Z;     (* uint32_t *)
  flags : Z;          (* uint32_t *)
  presented : bool
}.

(** What the six [const] accessors of the monitor return at some instant;
    a callback may read them while it runs. *)
Record Stats : Type := mkStats {
  st_presented_count : Z;
  st_discarded_count : Z;
  st_vsync_count : Z;
  st_zero_copy_count : Z;
  st_last_sequence : Z;
  st_last_timestamp_ns : Z
}.

(** [using FeedbackCallback = std::function<void(const PresentationFeedback&)>].
    [W] is the part of the program outside the monitor that the callback
    acts on (for instance the log it appends to). The callback receives the
    event and may call the accessors of the monitor; it does not call the
    member functions that modify the monitor it is registered with. *)
Definition FeedbackCallback (W : Type) : Type :=
  PresentationFeedback -> Stats -> W -> W.

(** [class WaylandPresentationMonitor] *)
Module WaylandPresentationMonitor.

Section Class.

Variable W : Type.

(** The data members of [class WaylandPresentationMonitor]. An empty
    [std::function] is [None]. The mutex guards [callback_] only and has no
    state between two calls of a sequential run. *)
Record Monitor : Type := mkMonitor {
  wl_display_ : Z;
  wl_surface_ : Z;
  wp_presentation_ : Z;
  callback_ : option (FeedbackCallback W);
  presented_count_ : Z;
  discarded_count_ : Z;
  vsync_count_ : Z;
  zero_copy_count_ : Z;
  last_sequence_ : Z;
  last_timestamp_ns_ : Z
}.

(** Assignments to one member. *)
Definition set_wl_display (v : Z) (m : Monitor) : Monitor :=
  mkMonitor v (wl_surface_ m) (wp_presentation_ m) (callback_ m)
    (presented_count_ m) (discarded_count_ m) (vsync_count_ m)
    (zero_copy_count_ m) (last_sequence_ m) (last_timestamp_ns_ m).

Definition set_wl_surface (v : Z) (m : Monitor) : Monitor :=
  mkMonitor (wl_display_ m) v (wp_presentation_ m) (callback_ m)
    (presented_count_ m) (discarded_count_ m) (vsync_count_ m)
    (zero_copy_count_ m) (last_sequence_ m) (last_timestamp_ns_ m).

Definition set_wp_presentation (v : Z) (m : Monitor) : Monitor :=
  mkMonitor (wl_display_ m) (wl_surface_ m) v (callback_ m)
    (presented_count_ m) (discarded_count_ m) (vsync_count_ m)
    (zero_copy_count_ m) (last_sequence_ m) (last_timestamp_ns_ m).

Definition set_callback_ (v : option (FeedbackCallback W))
    (m : Monitor) : Monitor :=
  mkMonitor (wl_display_ m) (wl_surface_ m) (wp_presentation_ m) v
    (presented_count_ m) (discarded_count_ m) (vsync_count_ m)
    (zero_copy_count_ m) (last_sequence_ m) (last_timestamp_ns_ m).

Definition set_presented_count (v : Z) (m : Monitor) : Monitor :=
  mkMonitor (wl_display_ m) (wl_surface_ m) (wp_presentation_ m) (callback_ m)
    v (discarded_count_ m) (vsync_count_ m)
    (zero_copy_count_ m) (last_sequence_ m) (last_timestamp_ns_ m).

Definition set_discarded_count (v : Z) (m : Monitor) : Monitor :=
  mkMonitor (wl_display_ m) (wl_surface_ m) (wp_presentation_ m) (callback_ m)
    (presented_count_ m) v (vsync_count_ m)
    (zero_copy_count_ m) (last_sequence_ m) (last_timestamp_ns_ m).

Definition set_vsync_count (v : Z) (m : Monitor) : Monitor :=
  mkMonitor (wl_display_ m) (wl_surface_ m) (wp_presentation_ m) (callback_ m)
    (presented_count_ m) (discarded_count_ m) v
    (zero_copy_count_ m) (last_sequence_ m) (last_timestamp_ns_ m).

Definition set_zero_copy_count (v : Z) (m : Monitor) : Monitor :=
  mkMonitor (wl_display_ m) (wl_surface_ m) (wp_presentation_ m) (callback_ m)
    (presented_count_ m) (discarded_count_ m) (vsync_count_ m)
    v (last_sequence_ m) (last_timestamp_ns_ m).

Definition set_last_sequence (v : Z) (m : Monitor) : Monitor :=
  mkMonitor (wl_display_ m) (wl_surface_ m) (wp_presentation_ m) (callback_ m)
    (presented_count_ m) (discarded_count_ m) (vsync_count_ m)
    (zero_copy_count_ m) v (last_timestamp_ns_ m).

Definition set_last_timestamp_ns (v : Z) (m : Monitor) : Monitor :=
  mkMonitor (wl_display_ m) (wl_surface_ m) (wp_presentation_ m) (callback_ m)
    (presented_count_ m) (discarded_count_ m) (vsync_count_ m)
    (zero_copy_count_ m) (last_sequence_ m) v.

(** The constructor. Its initializer list names the three handles and the
    four counters; [callback_] is default-constructed (empty);
    [last_sequence_] and [last_timestamp_ns_] are not named, so these two
    [std::atomic<uint64_t>] are default-initialized, which writes no value
    to them before C++20: they hold what the storage of the object held,
    [storage_sequence] and [storage_timestamp]. *)
Definition construct (storage_sequence storage_timestamp : Z) : Monitor :=
  {| wl_display_ := 0;
     wl_surface_ := 0;
     wp_presentation_ := 0;
     callback_ := None;
     presented_count_ := 0;
     discarded_count_ := 0;
     vsync_count_ := 0;
     zero_copy_count_ := 0;
     last_sequence_ := storage_sequence;
     last_timestamp_ns_ := storage_timestamp |}.

(** [bool initialize(uintptr_t wl_display, uintptr_t wl_surface,
    uintptr_t wp_presentation)] *)
Definition initialize (wl_display wl_surface wp_presentation : Z)
    (m : Monitor) : bool * Monitor :=
  let m := set_wl_display wl_display m in
  let m := set_wl_surface wl_surface m in
  let m := set_wp_presentation wp_presentation m in
  (Cpp.to_bool (wl_display_ m) && Cpp.to_bool (wl_surface_ m)
     && Cpp.to_bool (wp_presentation_ m), m).

(** [void set_callback(FeedbackCallback callback)]: the assignment, made
    with the mutex held. *)
Definition set_callback (callback : option (FeedbackCallback W))
    (m : Monitor) : Monitor :=
  set_callback_ callback m.

(** [void request_feedback()]: an empty body. *)
Definition request_feedback (m : Monitor) : Monitor := m.

(** The accessors. *)
Definition presented_count (m : Monitor) : Z := presented_count_ m.
Definition discarded_count (m : Monitor) : Z := discarded_count_ m.
Definition vsync_count (m : Monitor) : Z := vsync_count_ m.
Definition zero_copy_count (m : Monitor) : Z := zero_copy_count_ m.
Definition last_sequence (m : Monitor) : Z := last_sequence_ m.
Definition last_timestamp_ns (m : Monitor) : Z := last_timestamp_ns_ m.

(** The accessors as a callback sees them during its run. *)
Definition stats (m : Monitor) : Stats :=
  {| st_presented_count := presented_count m;
     st_discarded_count := discarded_count m;
     st_vsync_count := vsync_count m;
     st_zero_copy_count := zero_copy_count m;
     st_last_sequence := last_sequence m;
     st_last_timestamp_ns := last_timestamp_ns m |}.

(** [if (callback_) { callback_(fb); }] *)
Definition dispatch (fb : PresentationFeedback) (m : Monitor) (w : W) : W :=
  match callback_ m with
  | Some cb => cb fb (stats m) w
  | None => w
  end.

(** [void simulate_presented(uint64_t timestamp_ns, uint64_t sequence,
    uint32_t flags)]. The callback is read without taking the mutex. *)
Definition simulate_presented (timestamp_ns sequence flags : Z)
    (m : Monitor) (w : W) : Monitor * W :=
  let fb := mkFeedback timestamp_ns sequence 16666666 (* 60Hz *) flags true in
  let m := set_presented_count (Cpp.incr64 (presented_count_ m)) m in
  let m := set_last_timestamp_ns timestamp_ns m in
  let m := set_last_sequence sequence m in
  let m := if Cpp.to_bool (Z.land flags 1)   (* VSYNC *)
           then set_vsync_count (Cpp.incr64 (vsync_count_ m)) m
           else m in
  let m := if Cpp.to_bool (Z.land flags 8)   (* ZERO_COPY *)
           then set_zero_copy_count (Cpp.incr64 (zero_copy_count_ m)) m
           else m in
  (m, dispatch fb m w).

(** [void simulate_discarded()]. The local [fb] is declared without
    initializer and only [fb.presented] is assigned: the other four fields
    are those of [stack], the contents of the storage of [fb]. *)
Definition simulate_discarded (stack : PresentationFeedback)
    (m : Monitor) (w : W) : Monitor * W :=
  let fb := {| timestamp_ns := timestamp_ns stack;
               sequence := sequence stack;
               refresh_ns := refresh_ns stack;
               flags := flags stack;
               presented := false |} in
  let m := set_discarded_count (Cpp.incr64 (discarded_count_ m)) m in
  (m, dispatch fb m w).

End Class.

Arguments Monitor W : clear implicits.
Arguments mkMonitor {W}.
Arguments wl_display_ {W}.
Arguments wl_surface_ {W}.
Arguments wp_presentation_ {W}.
Arguments callback_ {W}.
Arguments presented_count_ {W}.
Arguments discarded_count_ {W}.
Arguments vsync_count_ {W}.
Arguments zero_copy_count_ {W}.
Arguments last_sequence_ {W}.
Arguments last_timestamp_ns_ {W}.
Arguments initialize {W}.
Arguments set_callback {W}.
Arguments request_feedback {W}.
Arguments presented_count {W}.
Arguments discarded_count {W}.
Arguments vsync_count {W}.
Arguments zero_copy_count {W}.
Arguments last_sequence {W}.
Arguments last_timestamp_ns {W}.
Arguments stats {W}.
Arguments dispatch {W}.
Arguments simulate_presented {W}.
Arguments simulate_discarded {W}.

End WaylandPresentationMonitor.

Import WaylandPresentationMonitor.

(** *** Sequences of calls made on one monitor *)

Section Calls.

Variable W : Type.

(** One feedback notification: a call of one of the two ingesting
    functions, with its arguments. *)
Inductive event : Type :=
  | Presented (timestamp sequence_no flag_bits : Z)
  | Discarded (stack : PresentationFeedback).

Definition ingest (e : event) (s : Monitor W * W) : Monitor W * W :=
  match e with
  | Presented t q f => simulate_presented t q f (fst s) (snd s)
  | Discarded k => simulate_discarded k (fst s) (snd s)
  end.

Definition ingest_all (es : list event) (s : Monitor W * W) : Monitor W * W :=
  fold_left (fun s e => ingest e s) es s.

(** Any call of the public interface. *)
Inductive operation : Type :=
  | Initialize (wl_display wl_surface wp_presentation : Z)
  | SetCallback (callback : option (FeedbackCallback W))
  | RequestFeedback
  | Ingest (e : event).

Definition perform (o : operation) (s : Monitor W * W) : Monitor W * W :=
  match o with
  | Initialize d f p => (snd (initialize d f p (fst s)), snd s)
  | SetCallback cb => (set_callback cb (fst s), snd s)
  | RequestFeedback => (request_feedback (fst s), snd s)
  | Ingest e => ingest e s
  end.

Definition perform_all (os : list operation)
    (s : Monitor W * W) : Monitor W * W :=
  fold_left (fun s o => perform o s) os s.

(** The monitor holds three non-null handles: what the latest
    [initialize] returned. The class has no other record of its
    initialization. *)
Definition handles_ready (m : Monitor W) : bool :=
  Cpp.to_bool (wl_display_ m) && Cpp.to_bool (wl_surface_ m)
    && Cpp.to_bool (wp_presentation_ m).

(** Predicates on events, for counting. *)
Definition is_presented (e : event) : bool :=
  match e with Presented _ _ _ => true | Discarded _ => false end.

Definition is_discarded (e : event) : bool := negb (is_presented e).

Definition is_vsync (e : event) : bool :=
  match e with
  | Presented _ _ f => Z.testbit f 0
  | Discarded _ => false
  end.

Definition is_zero_copy (e : event) : bool :=
  match e with
  | Presented _ _ f => Z.testbit f 3
  | Discarded _ => false
  end.

Definition count (p : event -> bool) (es : list event) : Z :=
  Z.of_nat (length (filter p es)).

(** Two monitors that agree on every member but [discarded_count_]. *)
Definition same_but_discarded (a b : Monitor W) : Prop :=
  wl_display_ a = wl_display_ b /\
  wl_surface_ a = wl_surface_ b /\
  wp_presentation_ a = wp_presentation_ b /\
  callback_ a = callback_ b /\
  presented_count_ a = presented_count_ b /\
  vsync_count_ a = vsync_count_ b /\
  zero_copy_count_ a = zero_copy_count_ b /\
  last_sequence_ a = last_sequence_ b /\
  last_timestamp_ns_ a = last_timestamp_ns_ b.

Definition is_initialize (o : operation) : bool :=
  match o with Initialize _ _ _ => true | _ => false end.

(** The values returned by the [initialize] calls of a run, in call
    order. *)
Fixpoint initialize_results (os : list operation) (s : Monitor W * W)
    : list bool :=
  match os with
  | [] => []
  | o :: os' =>
      match o with
      | Initialize d f p => [fst (initialize d f p (fst s))]
      | _ => []
      end ++ initialize_results os' (perform o s)
  end.

(** Some [initialize] call of the run has returned [true]. *)
Definition reached_ready (os : list operation) (s : Monitor W * W) : bool :=
  existsb (fun r : bool => r) (initialize_results os s).

(** The event that the callback receives for a notification. *)
Definition event_feedback (e : event) : PresentationFeedback :=
  match e with
  | Presented t q f => mkFeedback t q 16666666 f true
  | Discarded k =>
      mkFeedback (timestamp_ns k) (sequence k) (refresh_ns k) (flags k) false
  end.

(** Timestamp and sequence number of the last presented event of a
    sequence, if it has one. *)
Fixpoint last_presented (es : list event) : option (Z * Z) :=
  match es with
  | [] => None
  | e :: es' =>
      match last_presented es' with
      | Some r => Some r
      | None =>
          match e with
          | Presented t q _ => Some (t, q)
          | Discarded _ => None
          end
      end
  end.

(** The same notification with the unset fields of a discarded event
    replaced by zeros. *)
Definition forget_stack (e : event) : event :=
  match e with
  | Presented t q f => Presented t q f
  | Discarded _ => Discarded (mkFeedback 0 0 0 0 false)
  end.

(** The four counters hold [uint64_t] values. *)
Definition counters_in_range (m : Monitor W) : Prop :=
  Cpp.is_uint64 (presented_count_ m) /\
  Cpp.is_uint64 (discarded_count_ m) /\
  Cpp.is_uint64 (vsync_count_ m) /\
  Cpp.is_uint64 (zero_copy_count_ m).

End Calls.

Arguments ingest {W}.
Arguments ingest_all {W}.
Arguments operation W : clear implicits.
Arguments Initialize {W}.
Arguments SetCallback {W}.
Arguments RequestFeedback {W}.
Arguments Ingest {W}.
Arguments perform {W}.
Arguments perform_all {W}.
Arguments handles_ready {W}.
Arguments same_but_discarded {W}.
Arguments is_initialize {W}.
Arguments initialize_results {W}.
Arguments reached_ready {W}.
Arguments counters_in_range {W}.

(** [uintptr_t get_wl_display_ptr()] *)
Definition get_wl_display_ptr : Z := 0.

(** [uintptr_t get_wl_surface_ptr(uintptr_t qwindow_ptr)] *)
Definition get_wl_surface_ptr (qwindow_ptr : Z) : Z := 0.

(** A callback that appends each event it receives to a log. *)
Definition log_event : FeedbackCallback (list PresentationFeedback) :=
  fun fb _ log => log ++ [fb].

(** A callback that records each invocation: the event and the counters
    it could read at that moment. *)
Definition record_call :
    FeedbackCallback (list (PresentationFeedback * Stats)) :=
  fun fb st log => log ++ [(fb, st)].

End Wayland.

(** * Properties *)

Import Wayland.
Import Wayland.WaylandPresentationMonitor.

(** ** Arithmetic of the machine integers *)

Lemma wrap64_range (z : Z) : Cpp.is_uint64 (Cpp.wrap64 z).
Proof.
  unfold Cpp.is_uint64, Cpp.wrap64. apply Z.mod_pos_bound. lia.
Qed.

Lemma wrap64_small (z : Z) : Cpp.is_uint64 z -> Cpp.wrap64 z = z.
Proof.
  unfold Cpp.is_uint64, Cpp.wrap64. intros H. apply Z.mod_small. exact H.
Qed.

Lemma incr64_no_overflow (z : Z) :
  0 <= z -> z < 2 ^ 64 - 1 -> Cpp.incr64 z = z + 1.
Proof.
  intros H0 H1. unfold Cpp.incr64. apply wrap64_small.
  unfold Cpp.is_uint64. lia.
Qed.

Lemma incr64_max : Cpp.incr64 (2 ^ 64 - 1) = 0.
Proof. reflexivity. Qed.

Lemma to_bool_true (z : Z) : Cpp.to_bool z = true <-> z <> 0.
Proof.
  unfold Cpp.to_bool.
  destruct (Z.eqb_spec z 0); simpl; split; intros; congruence.
Qed.

Lemma to_bool_false (z : Z) : Cpp.to_bool z = false <-> z = 0.
Proof.
  unfold Cpp.to_bool.
  destruct (Z.eqb_spec z 0); simpl; split; intros; congruence.
Qed.

(** [flags & 0x1] and [flags & 0x8] test bit 0 and bit 3. *)
Lemma land_pow2_testbit (f n : Z) :
  0 <= n -> Cpp.to_bool (Z.land f (2 ^ n)) = Z.testbit f n.
Proof.
  intros Hn. destruct (Z.testbit f n) eqn:Hb.
  - apply to_bool_true. intros Hz.
    assert (Ht : Z.testbit (Z.land f (2 ^ n)) n = false)
      by (rewrite Hz; apply Z.bits_0).
    rewrite Z.land_spec, Hb, Z.pow2_bits_true in Ht by exact Hn.
    discriminate.
  - apply to_bool_false. apply Z.bits_inj'. intros i Hi.
    rewrite Z.land_spec, Z.bits_0, Z.pow2_bits_eqb by exact Hn.
    destruct (Z.eqb_spec n i) as [->|_].
    + rewrite Hb. reflexivity.
    + apply andb_false_r.
Qed.

Lemma flag_vsync (f : Z) : Cpp.to_bool (Z.land f 1) = Z.testbit f 0.
Proof. apply (land_pow2_testbit f 0). lia. Qed.

Lemma flag_zero_copy (f : Z) : Cpp.to_bool (Z.land f 8) = Z.testbit f 3.
Proof. apply (land_pow2_testbit f 3). lia. Qed.

(** ** Construction *)

(** C7. The claim is that a freshly constructed monitor reads 0 from all
    four counters and from [last_sequence()] and [last_timestamp_ns()],
    with three null handles. The constructor zeroes the counters and the
    handles but names neither [last_sequence_] nor [last_timestamp_ns_]:
    these two read what the storage of the object held. Built in storage
    that held 7 and 9, the monitor reads 7 and 9 there, not 0. *)
Theorem fresh_monitor_last_fields_unset :
  (forall (W : Type) (u v : Z),
      let m := construct W u v in
      presented_count m = 0 /\ discarded_count m = 0 /\
      vsync_count m = 0 /\ zero_copy_count m = 0 /\
      wl_display_ m = 0 /\ wl_surface_ m = 0 /\ wp_presentation_ m = 0 /\
      callback_ m = None /\
      last_sequence m = u /\ last_timestamp_ns m = v) /\
  last_sequence (construct unit 7 9) = 7 /\
  last_timestamp_ns (construct unit 7 9) = 9 /\
  last_sequence (construct unit 7 9) <> 0 /\
  last_timestamp_ns (construct unit 7 9) <> 0.
Proof.
  split; [intros W u v; cbn; repeat split|].
  cbn. repeat split; discriminate.
Qed.

(** ** initialize *)

Lemma initialize_result (W : Type) (d s p : Z) (m : Monitor W) :
  fst (initialize d s p m) = Cpp.to_bool d && Cpp.to_bool s && Cpp.to_bool p.
Proof. reflexivity. Qed.

Lemma initialize_true_iff (W : Type) (d s p : Z) (m : Monitor W) :
  fst (initialize d s p m) = true <-> d <> 0 /\ s <> 0 /\ p <> 0.
Proof.
  rewrite initialize_result, !andb_true_iff, !to_bool_true. tauto.
Qed.

(** C4. [initialize d s p] stores the three handles whatever they are and
    whatever was stored before, returns [true] exactly when all three are
    non-zero, and leaves the counters, the last-presented fields and the
    callback as they were; a second call overwrites the handles of the
    first; [initialize(0,0,0)] returns [false], [initialize(1,1,1)]
    returns [true]. The claim adds that on a freshly constructed monitor
    the kept values are 0, for the counters and for the last fields. The
    counters are; the last fields are what the constructor left in them,
    which it never wrote: on a monitor built in storage that held 7 and 9,
    [initialize(0,0,0)] returns [false] and [last_sequence()] and
    [last_timestamp_ns()] read 7 and 9 afterwards, not 0. *)
Theorem initialize_keeps_what_construction_left :
  (forall (W : Type) (d s p : Z) (m : Monitor W),
      let r := fst (initialize d s p m) in
      let m' := snd (initialize d s p m) in
      (wl_display_ m' = d /\ wl_surface_ m' = s /\ wp_presentation_ m' = p) /\
      (r = true <-> d <> 0 /\ s <> 0 /\ p <> 0) /\
      (presented_count m' = presented_count m /\
       discarded_count m' = discarded_count m /\
       vsync_count m' = vsync_count m /\
       zero_copy_count m' = zero_copy_count m /\
       last_sequence m' = last_sequence m /\
       last_timestamp_ns m' = last_timestamp_ns m /\
       callback_ m' = callback_ m) /\
      (forall d2 s2 p2 : Z,
          snd (initialize d2 s2 p2 m') = snd (initialize d2 s2 p2 m) /\
          fst (initialize d2 s2 p2 m') = fst (initialize d2 s2 p2 m)) /\
      fst (initialize 0 0 0 m) = false /\
      fst (initialize 1 1 1 m) = true) /\
  (forall (W : Type) (d s p u v : Z),
      let f := snd (initialize d s p (construct W u v)) in
      presented_count f = 0 /\ discarded_count f = 0 /\
      vsync_count f = 0 /\ zero_copy_count f = 0 /\
      last_sequence f = u /\ last_timestamp_ns f = v) /\
  fst (initialize 0 0 0 (construct unit 7 9)) = false /\
  last_sequence (snd (initialize 0 0 0 (construct unit 7 9))) = 7 /\
  last_timestamp_ns (snd (initialize 0 0 0 (construct unit 7 9))) = 9 /\
  last_sequence (snd (initialize 0 0 0 (construct unit 7 9))) <> 0 /\
  last_timestamp_ns (snd (initialize 0 0 0 (construct unit 7 9))) <> 0.
Proof.
  split; [|split].
  - intros W d s p m r m'. subst r m'.
    split; [repeat split|].
    split; [apply initialize_true_iff|].
    split; [repeat split|].
    split; [intros d2 s2 p2; split; reflexivity|].
    split; reflexivity.
  - intros W d s p u v. cbn. repeat split.
  - cbn. repeat split; discriminate.
Qed.

(** ** The handle stubs *)

(** C10. [get_wl_display_ptr()] returns 0, [get_wl_surface_ptr(q)] returns
    0 for every [q], and [initialize] returns [false] as soon as its
    display or its surface argument comes from them. *)
Theorem stub_handles_fail_initialize :
  get_wl_display_ptr = 0 /\
  (forall q : Z, get_wl_surface_ptr q = 0) /\
  (forall (W : Type) (q p : Z) (m : Monitor W),
      fst (initialize get_wl_display_ptr (get_wl_surface_ptr q) p m) = false) /\
  (forall (W : Type) (s p : Z) (m : Monitor W),
      fst (initialize get_wl_display_ptr s p m) = false) /\
  (forall (W : Type) (d q p : Z) (m : Monitor W),
      fst (initialize d (get_wl_surface_ptr q) p m) = false).
Proof.
  split; [reflexivity|]. split; [reflexivity|].
  split; [reflexivity|]. split; [reflexivity|].
  intros W d q p m. rewrite initialize_result.
  unfold get_wl_surface_ptr. cbn. rewrite andb_false_r. reflexivity.
Qed.

(** ** The two ingesting functions *)

(** The monitor after [simulate_presented], member by member. *)
Lemma simulate_presented_monitor (W : Type) (t q f : Z)
    (m : Monitor W) (w : W) :
  fst (simulate_presented t q f m w) =
  mkMonitor (wl_display_ m) (wl_surface_ m) (wp_presentation_ m) (callback_ m)
    (Cpp.incr64 (presented_count_ m))
    (discarded_count_ m)
    (if Z.testbit f 0 then Cpp.incr64 (vsync_count_ m) else vsync_count_ m)
    (if Z.testbit f 3 then Cpp.incr64 (zero_copy_count_ m)
     else zero_copy_count_ m)
    q t.
Proof.
  unfold simulate_presented. rewrite flag_vsync, flag_zero_copy.
  destruct (Z.testbit f 0), (Z.testbit f 3); reflexivity.
Qed.

(** Its effect outside the monitor: the callback, if any, run once on the
    event built from the arguments, with the updated monitor in view. *)
Lemma simulate_presented_world (W : Type) (t q f : Z) (m : Monitor W) (w : W) :
  snd (simulate_presented t q f m w) =
  dispatch (mkFeedback t q 16666666 f true)
    (fst (simulate_presented t q f m w)) w.
Proof. reflexivity. Qed.

Lemma simulate_discarded_monitor (W : Type) (k : PresentationFeedback)
    (m : Monitor W) (w : W) :
  fst (simulate_discarded k m w) =
  mkMonitor (wl_display_ m) (wl_surface_ m) (wp_presentation_ m) (callback_ m)
    (presented_count_ m)
    (Cpp.incr64 (discarded_count_ m))
    (vsync_count_ m) (zero_copy_count_ m)
    (last_sequence_ m) (last_timestamp_ns_ m).
Proof. reflexivity. Qed.

Lemma simulate_discarded_world (W : Type) (k : PresentationFeedback)
    (m : Monitor W) (w : W) :
  snd (simulate_discarded k m w) =
  dispatch
    (mkFeedback (timestamp_ns k) (sequence k) (refresh_ns k) (flags k) false)
    (fst (simulate_discarded k m w)) w.
Proof. reflexivity. Qed.

Lemma dispatch_some (W : Type) (cb : FeedbackCallback W)
    (fb : PresentationFeedback) (m : Monitor W) (w : W) :
  callback_ m = Some cb -> dispatch fb m w = cb fb (stats m) w.
Proof. intros H. unfold dispatch. rewrite H. reflexivity. Qed.

Lemma dispatch_none (W : Type) (fb : PresentationFeedback)
    (m : Monitor W) (w : W) :
  callback_ m = None -> dispatch fb m w = w.
Proof. intros H. unfold dispatch. rewrite H. reflexivity. Qed.

(** C5. With a callback [cb] registered, [simulate_presented t q f] runs
    [cb] once, within the call, on the event
    [(t, q, 16666666, f, presented = true)], and the counters [cb] can read
    are those after the update for this very event: [presented_count]
    already incremented, [last_timestamp_ns] and [last_sequence] already
    [t] and [q], [vsync_count] and [zero_copy_count] already incremented
    when bit 0 and bit 3 of [f] are set. A callback that records its
    invocations has recorded exactly one more when the call returns. *)
Theorem simulate_presented_invokes_callback_after_update :
  forall t q f : Z,
    (forall (W : Type) (cb : FeedbackCallback W) (m : Monitor W) (w : W),
        callback_ m = Some cb ->
        let m' := fst (simulate_presented t q f m w) in
        snd (simulate_presented t q f m w) =
          cb (mkFeedback t q 16666666 f true) (stats m') w /\
        st_presented_count (stats m') = Cpp.incr64 (presented_count m) /\
        st_discarded_count (stats m') = discarded_count m /\
        st_vsync_count (stats m') =
          (if Z.testbit f 0 then Cpp.incr64 (vsync_count m)
           else vsync_count m) /\
        st_zero_copy_count (stats m') =
          (if Z.testbit f 3 then Cpp.incr64 (zero_copy_count m)
           else zero_copy_count m) /\
        st_last_sequence (stats m') = q /\
        st_last_timestamp_ns (stats m') = t) /\
    (forall (m : Monitor (list (PresentationFeedback * Stats)))
            (calls : list (PresentationFeedback * Stats)),
        callback_ m = Some record_call ->
        snd (simulate_presented t q f m calls) =
          calls ++ [(mkFeedback t q 16666666 f true,
                     stats (fst (simulate_presented t q f m calls)))] /\
        length (snd (simulate_presented t q f m calls)) = S (length calls)).
Proof.
  intros t q f. split.
  - intros W cb m w Hcb m'. subst m'.
    rewrite simulate_presented_world.
    rewrite simulate_presented_monitor.
    split; [apply dispatch_some; exact Hcb|].
    cbn. repeat split.
  - intros m calls Hcb.
    assert (E : snd (simulate_presented t q f m calls) =
                calls ++ [(mkFeedback t q 16666666 f true,
                           stats (fst (simulate_presented t q f m calls)))]).
    { rewrite simulate_presented_world.
      rewrite (dispatch_some _ record_call).
      - reflexivity.
      - rewrite simulate_presented_monitor. exact Hcb. }
    split; [exact E|].
    rewrite E, length_app. cbn. lia.
Qed.

Lemma simulate_presented_invokes_callback_after_update_witness :
  callback_ (set_callback (Some record_call) (construct _ 0 0))
    = Some record_call /\
  snd (simulate_presented 100 1 9
         (set_callback (Some record_call) (construct _ 0 0)) []) =
    [(mkFeedback 100 1 16666666 9 true, mkStats 1 0 1 1 1 100)].
Proof.
  split; [reflexivity|].
  exact (proj1
    (proj2 (simulate_presented_invokes_callback_after_update 100 1 9)
       (set_callback (Some record_call) (construct _ 0 0)) []
       eq_refl)).
Defined.

(** C6, as the code has it. With a callback registered,
    [simulate_discarded] runs it once on an event whose [presented] field
    is [false]; the four other fields are not assigned by the function and
    the callback receives in them what the storage of the local [fb] held. *)
Theorem simulate_discarded_event_fields :
  forall (W : Type) (cb : FeedbackCallback W) (k : PresentationFeedback)
         (m : Monitor W) (w : W),
    callback_ m = Some cb ->
    exists fb : PresentationFeedback,
      snd (simulate_discarded k m w) =
        cb fb (stats (fst (simulate_discarded k m w))) w /\
      presented fb = false /\
      timestamp_ns fb = timestamp_ns k /\
      sequence fb = sequence k /\
      refresh_ns fb = refresh_ns k /\
      flags fb = flags k.
Proof.
  intros W cb k m w Hcb.
  exists (mkFeedback (timestamp_ns k) (sequence k) (refresh_ns k) (flags k)
            false).
  rewrite simulate_discarded_world.
  split; [|repeat split].
  apply dispatch_some. rewrite simulate_discarded_monitor. exact Hcb.
Qed.

Lemma simulate_discarded_event_fields_witness :
  callback_ (set_callback (Some log_event) (construct _ 0 0))
    = Some log_event /\
  exists fb : PresentationFeedback,
    snd (simulate_discarded (mkFeedback 5 6 7 8 true)
           (set_callback (Some log_event) (construct _ 0 0)) []) =
      log_event fb
        (stats (fst (simulate_discarded (mkFeedback 5 6 7 8 true)
                       (set_callback (Some log_event) (construct _ 0 0)) [])))
        [] /\
    presented fb = false /\
    timestamp_ns fb = 5 /\ sequence fb = 6 /\
    refresh_ns fb = 7 /\ flags fb = 8.
Proof.
  split; [reflexivity|].
  exact (simulate_discarded_event_fields _ log_event (mkFeedback 5 6 7 8 true)
           (set_callback (Some log_event) (construct _ 0 0)) [] eq_refl).
Defined.

(** C6, as the claim has it, fails: the four fields are not zero when the
    storage of [fb] was not. Here the storage holds 5, 6, 7, 8 and the
    logging callback receives them. *)
Lemma simulate_discarded_fields_not_zeroed :
  snd (simulate_discarded (mkFeedback 5 6 7 8 true)
         (set_callback (Some log_event) (construct _ 0 0)) [])
    = [mkFeedback 5 6 7 8 false] /\
  ~ (forall (k : PresentationFeedback)
            (m : Monitor (list PresentationFeedback))
            (log : list PresentationFeedback),
        callback_ m = Some log_event ->
        exists fb : PresentationFeedback,
          snd (simulate_discarded k m log) = log ++ [fb] /\
          presented fb = false /\
          timestamp_ns fb = 0 /\ sequence fb = 0 /\
          refresh_ns fb = 0 /\ flags fb = 0).
Proof.
  split; [reflexivity|].
  intros H.
  destruct (H (mkFeedback 5 6 7 8 true)
              (set_callback (Some log_event) (construct _ 0 0)) [] eq_refl)
    as [fb [E [_ [Ht _]]]].
  cbn in E. injection E as E. subst fb. discriminate Ht.
Qed.

(** ** Sequences of ingestions *)

Lemma ingest_all_cons (W : Type) (e : event) (es : list event)
    (s : Monitor W * W) :
  ingest_all (e :: es) s = ingest_all es (ingest e s).
Proof. reflexivity. Qed.

Lemma ingest_all_snoc (W : Type) (es : list event) (e : event)
    (s : Monitor W * W) :
  ingest_all (es ++ [e]) s = ingest e (ingest_all es s).
Proof. unfold ingest_all. rewrite fold_left_app. reflexivity. Qed.

Lemma count_nil (p : event -> bool) : count p [] = 0.
Proof. reflexivity. Qed.

Lemma count_cons (p : event -> bool) (e : event) (es : list event) :
  count p (e :: es) = (if p e then 1 else 0) + count p es.
Proof.
  unfold count. cbn [filter]. destruct (p e); cbn [length]; lia.
Qed.

Lemma count_app (p : event -> bool) (xs ys : list event) :
  count p (xs ++ ys) = count p xs + count p ys.
Proof.
  unfold count. rewrite filter_app, length_app. lia.
Qed.

Lemma count_bounds (p : event -> bool) (es : list event) :
  0 <= count p es <= Z.of_nat (length es).
Proof.
  induction es as [|e es IH].
  - cbn. lia.
  - rewrite count_cons. cbn [length]. destruct (p e); lia.
Qed.

(** How one ingestion moves each counter. *)
Lemma ingest_presented_count (W : Type) (e : event) (s : Monitor W * W) :
  presented_count (fst (ingest e s)) =
  if is_presented e then Cpp.incr64 (presented_count (fst s))
  else presented_count (fst s).
Proof.
  destruct e as [t q f|k]; cbn [ingest is_presented].
  - rewrite simulate_presented_monitor. reflexivity.
  - reflexivity.
Qed.

Lemma ingest_discarded_count (W : Type) (e : event) (s : Monitor W * W) :
  discarded_count (fst (ingest e s)) =
  if is_discarded e then Cpp.incr64 (discarded_count (fst s))
  else discarded_count (fst s).
Proof.
  destruct e as [t q f|k]; cbn [ingest is_discarded is_presented negb].
  - rewrite simulate_presented_monitor. reflexivity.
  - reflexivity.
Qed.

Lemma ingest_vsync_count (W : Type) (e : event) (s : Monitor W * W) :
  vsync_count (fst (ingest e s)) =
  if is_vsync e then Cpp.incr64 (vsync_count (fst s))
  else vsync_count (fst s).
Proof.
  destruct e as [t q f|k]; cbn [ingest is_vsync].
  - rewrite simulate_presented_monitor. reflexivity.
  - reflexivity.
Qed.

Lemma ingest_zero_copy_count (W : Type) (e : event) (s : Monitor W * W) :
  zero_copy_count (fst (ingest e s)) =
  if is_zero_copy e then Cpp.incr64 (zero_copy_count (fst s))
  else zero_copy_count (fst s).
Proof.
  destruct e as [t q f|k]; cbn [ingest is_zero_copy].
  - rewrite simulate_presented_monitor. reflexivity.
  - reflexivity.
Qed.

Section Counter.

(** A counter [c] that one ingestion increments exactly on the events
    that satisfy [p]. *)
Variable W : Type.
Variable c : Monitor W -> Z.
Variable p : event -> bool.
Hypothesis step : forall (e : event) (s : Monitor W * W),
  c (fst (ingest e s)) =
  if p e then Cpp.incr64 (c (fst s)) else c (fst s).

Lemma counter_after_all (es : list event) (s : Monitor W * W) :
  Cpp.is_uint64 (c (fst s)) ->
  c (fst (ingest_all es s)) = Cpp.wrap64 (c (fst s) + count p es).
Proof.
  revert s. induction es as [|e es IH]; intros s Hs.
  - rewrite count_nil, Z.add_0_r. cbn. symmetry. apply wrap64_small. exact Hs.
  - rewrite ingest_all_cons, IH.
    + rewrite step, count_cons. destruct (p e).
      * unfold Cpp.incr64, Cpp.wrap64.
        rewrite Z.add_mod_idemp_l by lia. f_equal. lia.
      * f_equal.
    + rewrite step. destruct (p e); [apply wrap64_range | exact Hs].
Qed.

Lemma counter_exact (es : list event) (s : Monitor W * W) :
  0 <= c (fst s) ->
  c (fst s) + Z.of_nat (length es) < 2 ^ 64 ->
  c (fst (ingest_all es s)) = c (fst s) + count p es.
Proof.
  intros H0 Hlen. pose proof (count_bounds p es) as Hc.
  rewrite counter_after_all by (unfold Cpp.is_uint64; lia).
  apply wrap64_small. unfold Cpp.is_uint64. lia.
Qed.

Lemma counter_step_monotone (pre : list event) (e : event)
    (s : Monitor W * W) :
  0 <= c (fst s) ->
  c (fst s) + Z.of_nat (length (pre ++ [e])) < 2 ^ 64 ->
  c (fst (ingest_all pre s)) <= c (fst (ingest e (ingest_all pre s))).
Proof.
  intros H0 Hlen.
  rewrite <- ingest_all_snoc.
  rewrite (counter_exact (pre ++ [e])) by assumption.
  rewrite length_app in Hlen. cbn [length] in Hlen.
  rewrite (counter_exact pre) by lia.
  rewrite count_app. pose proof (count_bounds p [e]). lia.
Qed.

End Counter.

(** C1. On a freshly constructed monitor, with or without a callback, run
    any sequence [es] of ingestions. Each counter then holds, in
    [uint64_t], the number of events of its kind: [presented_count] the
    presented events, [discarded_count] the discarded events,
    [vsync_count] the presented events with bit 0 of their flags set,
    [zero_copy_count] the presented events with bit 3 set. As long as the
    calls are fewer than 2^64, which is what a 64-bit counter can number,
    these are the numbers themselves and no call makes any of the four
    counters smaller. *)
Theorem counters_monotone_and_exact :
  forall (W : Type) (u v : Z) (cb : option (FeedbackCallback W)) (w : W)
         (es : list event),
    let s0 := (set_callback cb (construct W u v), w) in
    (presented_count (fst (ingest_all es s0))
       = Cpp.wrap64 (count is_presented es) /\
     discarded_count (fst (ingest_all es s0))
       = Cpp.wrap64 (count is_discarded es) /\
     vsync_count (fst (ingest_all es s0))
       = Cpp.wrap64 (count is_vsync es) /\
     zero_copy_count (fst (ingest_all es s0))
       = Cpp.wrap64 (count is_zero_copy es)) /\
    (Z.of_nat (length es) < 2 ^ 64 ->
     (forall (pre : list event) (e : event) (post : list event),
         es = pre ++ e :: post ->
         let before := fst (ingest_all pre s0) in
         let after := fst (ingest e (ingest_all pre s0)) in
         presented_count before <= presented_count after /\
         discarded_count before <= discarded_count after /\
         vsync_count before <= vsync_count after /\
         zero_copy_count before <= zero_copy_count after) /\
     presented_count (fst (ingest_all es s0)) = count is_presented es /\
     discarded_count (fst (ingest_all es s0)) = count is_discarded es /\
     vsync_count (fst (ingest_all es s0)) = count is_vsync es /\
     zero_copy_count (fst (ingest_all es s0)) = count is_zero_copy es).
Proof.
  intros W u v cb w es s0.
  assert (Z0 : Cpp.is_uint64 0) by (unfold Cpp.is_uint64; lia).
  split.
  { split; [|split; [|split]].
    - apply (counter_after_all W presented_count is_presented
               (ingest_presented_count W) es s0 Z0).
    - apply (counter_after_all W discarded_count is_discarded
               (ingest_discarded_count W) es s0 Z0).
    - apply (counter_after_all W vsync_count is_vsync
               (ingest_vsync_count W) es s0 Z0).
    - apply (counter_after_all W zero_copy_count is_zero_copy
               (ingest_zero_copy_count W) es s0 Z0). }
  intros Hlen. split.
  - intros pre e post Hes before after. subst before after.
    assert (Hpre : 0 + Z.of_nat (length (pre ++ [e])) < 2 ^ 64).
    { rewrite Hes in Hlen. rewrite !length_app in *. cbn [length] in *. lia. }
    split; [|split; [|split]].
    + apply (counter_step_monotone W presented_count is_presented
               (ingest_presented_count W)); [cbn; lia | exact Hpre].
    + apply (counter_step_monotone W discarded_count is_discarded
               (ingest_discarded_count W)); [cbn; lia | exact Hpre].
    + apply (counter_step_monotone W vsync_count is_vsync
               (ingest_vsync_count W)); [cbn; lia | exact Hpre].
    + apply (counter_step_monotone W zero_copy_count is_zero_copy
               (ingest_zero_copy_count W)); [cbn; lia | exact Hpre].
  - split; [|split; [|split]].
    + rewrite (counter_exact W presented_count is_presented
                 (ingest_presented_count W)); cbn; lia.
    + rewrite (counter_exact W discarded_count is_discarded
                 (ingest_discarded_count W)); cbn; lia.
    + rewrite (counter_exact W vsync_count is_vsync
                 (ingest_vsync_count W)); cbn; lia.
    + rewrite (counter_exact W zero_copy_count is_zero_copy
                 (ingest_zero_copy_count W)); cbn; lia.
Qed.

Lemma counters_monotone_and_exact_witness :
  Z.of_nat (length [Presented 100 1 9; Discarded (mkFeedback 0 0 0 0 false);
                    Presented 200 2 1]) < 2 ^ 64 /\
  presented_count
    (fst (ingest_all [Presented 100 1 9; Discarded (mkFeedback 0 0 0 0 false);
                      Presented 200 2 1]
            (set_callback None (construct unit 0 0), tt))) = 2 /\
  vsync_count
    (fst (ingest_all [Presented 100 1 9; Discarded (mkFeedback 0 0 0 0 false);
                      Presented 200 2 1]
            (set_callback None (construct unit 0 0), tt))) = 2.
Proof.
  assert (H : Z.of_nat (length [Presented 100 1 9;
                                Discarded (mkFeedback 0 0 0 0 false);
                                Presented 200 2 1]) < 2 ^ 64)
    by (cbn; lia).
  split; [exact H|].
  pose proof (proj2 (counters_monotone_and_exact unit 0 0 None tt
                       [Presented 100 1 9;
                        Discarded (mkFeedback 0 0 0 0 false);
                        Presented 200 2 1]) H)
    as [_ [Hp [_ [Hv _]]]].
  split; [exact Hp | exact Hv].
Defined.

(** ** Discarded events *)

Lemma same_but_discarded_refl (W : Type) (m : Monitor W) :
  same_but_discarded m m.
Proof. unfold same_but_discarded. repeat split. Qed.

(** A discarded event on the left only keeps the two monitors in step. *)
Lemma same_but_discarded_left (W : Type) (k : PresentationFeedback)
    (a b : Monitor W) (w : W) :
  same_but_discarded a b ->
  same_but_discarded (fst (simulate_discarded k a w)) b.
Proof.
  intros H. rewrite simulate_discarded_monitor.
  unfold same_but_discarded in *. cbn. exact H.
Qed.

(** The same presented event on both sides keeps them in step, whatever
    the callbacks did outside. *)
Lemma same_but_discarded_both (W : Type) (t q f : Z)
    (a b : Monitor W) (w1 w2 : W) :
  same_but_discarded a b ->
  same_but_discarded (fst (simulate_presented t q f a w1))
                     (fst (simulate_presented t q f b w2)).
Proof.
  intros (Hd & Hs & Hp & Hc & Hpc & Hv & Hz & _ & _).
  rewrite !simulate_presented_monitor.
  unfold same_but_discarded. cbn.
  rewrite Hd, Hs, Hp, Hc, Hpc, Hv, Hz. repeat split.
Qed.

Lemma discards_invisible (W : Type) (es : list event) :
  forall (a b : Monitor W) (w1 w2 : W),
    same_but_discarded a b ->
    same_but_discarded (fst (ingest_all es (a, w1)))
                       (fst (ingest_all (filter is_presented es) (b, w2))).
Proof.
  induction es as [|e es IH]; intros a b w1 w2 H.
  - exact H.
  - rewrite ingest_all_cons. destruct e as [t q f|k]; cbn [filter is_presented].
    + rewrite ingest_all_cons. cbn [ingest fst snd].
      rewrite (surjective_pairing (simulate_presented t q f a w1)).
      rewrite (surjective_pairing (simulate_presented t q f b w2)).
      apply IH. apply same_but_discarded_both. exact H.
    + cbn [ingest fst snd].
      rewrite (surjective_pairing (simulate_discarded k a w1)).
      apply IH. apply same_but_discarded_left. exact H.
Qed.

Lemma presented_only_keeps_discarded_count (W : Type) (es : list event)
    (s : Monitor W * W) :
  discarded_count (fst (ingest_all (filter is_presented es) s)) =
  discarded_count (fst s).
Proof.
  revert s. induction es as [|e es IH]; intros s.
  - reflexivity.
  - destruct e as [t q f|k]; cbn [filter is_presented].
    + rewrite ingest_all_cons, IH. cbn [ingest].
      rewrite simulate_presented_monitor. reflexivity.
    + apply IH.
Qed.

(** C3. [simulate_discarded] increments [discarded_count] (by one, in
    [uint64_t] arithmetic) and leaves [last_sequence()],
    [last_timestamp_ns()], [presented_count()], [vsync_count()],
    [zero_copy_count()], the three handles and the registered callback as
    they were. For a sequence of events, the discarded ones interleaved in
    any way with the presented ones: the monitor ends with the very
    last-presented fields, counters, handles and callback it would have
    had without the discarded events, and with [discarded_count] advanced
    by their number. *)
Theorem simulate_discarded_touches_only_its_counter :
  forall W : Type,
    (forall (k : PresentationFeedback) (m : Monitor W) (w : W),
        let m' := fst (simulate_discarded k m w) in
        discarded_count m' = Cpp.wrap64 (discarded_count m + 1) /\
        (0 <= discarded_count m < 2 ^ 64 - 1 ->
         discarded_count m' = discarded_count m + 1) /\
        last_sequence m' = last_sequence m /\
        last_timestamp_ns m' = last_timestamp_ns m /\
        presented_count m' = presented_count m /\
        vsync_count m' = vsync_count m /\
        zero_copy_count m' = zero_copy_count m /\
        wl_display_ m' = wl_display_ m /\
        wl_surface_ m' = wl_surface_ m /\
        wp_presentation_ m' = wp_presentation_ m /\
        callback_ m' = callback_ m) /\
    (forall (es : list event) (m : Monitor W) (w : W),
        let m' := fst (ingest_all es (m, w)) in
        let m0 := fst (ingest_all (filter is_presented es) (m, w)) in
        last_sequence m' = last_sequence m0 /\
        last_timestamp_ns m' = last_timestamp_ns m0 /\
        presented_count m' = presented_count m0 /\
        vsync_count m' = vsync_count m0 /\
        zero_copy_count m' = zero_copy_count m0 /\
        wl_display_ m' = wl_display_ m0 /\
        wl_surface_ m' = wl_surface_ m0 /\
        wp_presentation_ m' = wp_presentation_ m0 /\
        callback_ m' = callback_ m0 /\
        discarded_count m0 = discarded_count m /\
        (Cpp.is_uint64 (discarded_count m) ->
         discarded_count m' =
           Cpp.wrap64 (discarded_count m + count is_discarded es))).
Proof.
  intros W. split.
  - intros k m w m'. subst m'. rewrite simulate_discarded_monitor. cbn.
    split; [reflexivity|].
    split; [intros H; apply incr64_no_overflow; lia|].
    repeat split.
  - intros es m w m' m0. subst m' m0.
    pose proof (discards_invisible W es m m w w (same_but_discarded_refl W m))
      as (Hd & Hs & Hp & Hc & Hpc & Hv & Hz & Hq & Ht).
    unfold last_sequence, last_timestamp_ns, presented_count, vsync_count,
      zero_copy_count.
    rewrite Hd, Hs, Hp, Hc, Hpc, Hv, Hz, Hq, Ht.
    repeat split.
    + apply (presented_only_keeps_discarded_count W es (m, w)).
    + intros Hr.
      apply (counter_after_all W discarded_count is_discarded
               (ingest_discarded_count W) es (m, w) Hr).
Qed.

Lemma simulate_discarded_touches_only_its_counter_witness :
  0 <= discarded_count (construct unit 3 4) < 2 ^ 64 - 1 /\
  discarded_count
    (fst (simulate_discarded (mkFeedback 5 6 7 8 true) (construct unit 3 4) tt))
    = discarded_count (construct unit 3 4) + 1 /\
  Cpp.is_uint64 (discarded_count (construct unit 3 4)) /\
  discarded_count
    (fst (ingest_all
            [Discarded (mkFeedback 5 6 7 8 true); Presented 100 1 1;
             Discarded (mkFeedback 0 0 0 0 false)]
            (construct unit 3 4, tt))) = 2.
Proof.
  assert (H1 : 0 <= discarded_count (construct unit 3 4) < 2 ^ 64 - 1)
    by (cbn; lia).
  assert (H2 : Cpp.is_uint64 (discarded_count (construct unit 3 4)))
    by (unfold Cpp.is_uint64; cbn; lia).
  split; [exact H1|].
  split.
  - exact (proj1 (proj2
      (proj1 (simulate_discarded_touches_only_its_counter unit)
         (mkFeedback 5 6 7 8 true) (construct unit 3 4) tt)) H1).
  - split; [exact H2|].
    pose proof (proj2 (simulate_discarded_touches_only_its_counter unit)
      [Discarded (mkFeedback 5 6 7 8 true); Presented 100 1 1;
       Discarded (mkFeedback 0 0 0 0 false)] (construct unit 3 4) tt) as H.
    cbv zeta in H.
    exact (proj2 (proj2 (proj2 (proj2 (proj2 (proj2 (proj2 (proj2 (proj2
             (proj2 H))))))))) H2).
Defined.

(** ** Delivery to a logging callback *)

(** C2. A freshly constructed monitor, the logging callback registered,
    then [simulate_presented(100, 1, 1)], [simulate_discarded()],
    [simulate_presented(200, 2, 8)] in sequence: the log grows by one entry
    per call, in call order, and ends with exactly three entries, the
    second with [presented = false]; the monitor ends with
    [presented_count = 2], [discarded_count = 1], [vsync_count = 1],
    [zero_copy_count = 1], [last_sequence = 2], [last_timestamp_ns = 200].
    This holds whatever the unset storage held ([u], [v], [k]). *)
Theorem logged_scenario :
  forall (u v : Z) (k : PresentationFeedback),
    let m0 := set_callback (Some log_event) (construct _ u v) in
    let s1 := simulate_presented 100 1 1 m0 [] in
    let s2 := simulate_discarded k (fst s1) (snd s1) in
    let s3 := simulate_presented 200 2 8 (fst s2) (snd s2) in
    let e1 := mkFeedback 100 1 16666666 1 true in
    let e2 := mkFeedback (timestamp_ns k) (sequence k) (refresh_ns k)
                (flags k) false in
    let e3 := mkFeedback 200 2 16666666 8 true in
    snd s1 = [e1] /\
    snd s2 = [e1; e2] /\
    snd s3 = [e1; e2; e3] /\
    length (snd s3) = 3%nat /\
    presented e2 = false /\
    presented_count (fst s3) = 2 /\
    discarded_count (fst s3) = 1 /\
    vsync_count (fst s3) = 1 /\
    zero_copy_count (fst s3) = 1 /\
    last_sequence (fst s3) = 2 /\
    last_timestamp_ns (fst s3) = 200 /\
    s3 = ingest_all [Presented 100 1 1; Discarded k; Presented 200 2 8]
           (m0, []).
Proof.
  intros u v k. cbn. repeat split.
Qed.

(** ** Life cycle *)

(** Calls other than [initialize] leave the three handles alone. *)
Lemma perform_keeps_handles (W : Type) (o : operation W)
    (s : Monitor W * W) :
  is_initialize o = false ->
  wl_display_ (fst (perform o s)) = wl_display_ (fst s) /\
  wl_surface_ (fst (perform o s)) = wl_surface_ (fst s) /\
  wp_presentation_ (fst (perform o s)) = wp_presentation_ (fst s).
Proof.
  destruct o as [d f p|cb| |e]; cbn [is_initialize]; intros H.
  - discriminate H.
  - repeat split.
  - repeat split.
  - destruct e as [t q fl|k]; cbn [perform ingest].
    + rewrite simulate_presented_monitor. repeat split.
    + rewrite simulate_discarded_monitor. repeat split.
Qed.

Lemma perform_all_keeps_handles (W : Type) (os : list (operation W)) :
  forall s : Monitor W * W,
    forallb (fun o => negb (is_initialize o)) os = true ->
    wl_display_ (fst (perform_all os s)) = wl_display_ (fst s) /\
    wl_surface_ (fst (perform_all os s)) = wl_surface_ (fst s) /\
    wp_presentation_ (fst (perform_all os s)) = wp_presentation_ (fst s).
Proof.
  induction os as [|o os IH]; intros s H.
  - repeat split.
  - cbn [forallb] in H. apply andb_true_iff in H as [Ho Hos].
    apply negb_true_iff in Ho.
    destruct (perform_keeps_handles W o s Ho) as (Hd & Hs & Hp).
    destruct (IH (perform o s) Hos) as (Hd' & Hs' & Hp').
    change (perform_all (o :: os) s) with (perform_all os (perform o s)).
    rewrite Hd', Hs', Hp', Hd, Hs, Hp. repeat split.
Qed.

(** A successful [initialize] followed by [initialize(0, 0, 0)] gives back
    the monitor as it was constructed. *)
Lemma reinitialize_with_null_handles :
  fst (initialize 1 1 1 (construct unit 0 0)) = true /\
  fst (initialize 0 0 0 (snd (initialize 1 1 1 (construct unit 0 0))))
    = false /\
  snd (initialize 0 0 0 (snd (initialize 1 1 1 (construct unit 0 0))))
    = construct unit 0 0.
Proof. repeat split. Qed.

Lemma initialize_results_app (W : Type) (os later : list (operation W)) :
  forall s : Monitor W * W,
    initialize_results (os ++ later) s
      = initialize_results os s
          ++ initialize_results later (perform_all os s).
Proof.
  induction os as [|o os IH]; intros s.
  - reflexivity.
  - cbn [app initialize_results]. rewrite IH, app_assoc. reflexivity.
Qed.

Lemma reached_ready_app (W : Type) (os later : list (operation W))
    (s : Monitor W * W) :
  reached_ready (os ++ later) s
    = reached_ready os s || reached_ready later (perform_all os s).
Proof.
  unfold reached_ready. rewrite initialize_results_app. apply existsb_app.
Qed.

(** C8. A monitor is Ready once some [initialize] call of its history has
    returned [true]. It then stays Ready whatever calls follow, further
    [initialize] calls with any argument values included. Such a
    re-initialization overwrites the three stored handles with its
    arguments (they are all non-null afterwards exactly when it returned
    [true]) and changes nothing else: counters, last-presented fields,
    callback and everything outside the monitor are kept. The monitor
    keeps accepting events after any such history: [simulate_presented]
    and [simulate_discarded] update the counters and last fields and
    invoke the registered callback with the event. *)
Theorem ready_monitor_stays_ready :
  forall (W : Type) (s : Monitor W * W) (os later : list (operation W)),
    reached_ready os s = true ->
    reached_ready (os ++ later) s = true /\
    (forall d f p : Z,
        let a := perform_all (os ++ later) s in
        let b := perform (Initialize d f p) a in
        reached_ready (os ++ later ++ [Initialize d f p]) s = true /\
        wl_display_ (fst b) = d /\
        wl_surface_ (fst b) = f /\
        wp_presentation_ (fst b) = p /\
        handles_ready (fst b) = fst (initialize d f p (fst a)) /\
        presented_count (fst b) = presented_count (fst a) /\
        discarded_count (fst b) = discarded_count (fst a) /\
        vsync_count (fst b) = vsync_count (fst a) /\
        zero_copy_count (fst b) = zero_copy_count (fst a) /\
        last_sequence (fst b) = last_sequence (fst a) /\
        last_timestamp_ns (fst b) = last_timestamp_ns (fst a) /\
        callback_ (fst b) = callback_ (fst a) /\
        snd b = snd a) /\
    (forall t q f : Z,
        let a := perform_all (os ++ later) s in
        let b := simulate_presented t q f (fst a) (snd a) in
        presented_count (fst b) = Cpp.incr64 (presented_count (fst a)) /\
        last_sequence (fst b) = q /\
        last_timestamp_ns (fst b) = t /\
        vsync_count (fst b)
          = (if Z.testbit f 0 then Cpp.incr64 (vsync_count (fst a))
             else vsync_count (fst a)) /\
        zero_copy_count (fst b)
          = (if Z.testbit f 3 then Cpp.incr64 (zero_copy_count (fst a))
             else zero_copy_count (fst a)) /\
        (forall cb : FeedbackCallback W,
            callback_ (fst a) = Some cb ->
            snd b = cb (mkFeedback t q 16666666 f true) (stats (fst b))
                      (snd a)) /\
        (callback_ (fst a) = None -> snd b = snd a)) /\
    (forall k : PresentationFeedback,
        let a := perform_all (os ++ later) s in
        let b := simulate_discarded k (fst a) (snd a) in
        discarded_count (fst b) = Cpp.incr64 (discarded_count (fst a)) /\
        (forall cb : FeedbackCallback W,
            callback_ (fst a) = Some cb ->
            snd b = cb (mkFeedback (timestamp_ns k) (sequence k)
                          (refresh_ns k) (flags k) false)
                      (stats (fst b)) (snd a)) /\
        (callback_ (fst a) = None -> snd b = snd a)).
Proof.
  intros W s os later H.
  assert (R : reached_ready (os ++ later) s = true)
    by (rewrite reached_ready_app, H; reflexivity).
  split; [exact R|]. split; [|split].
  - intros d f p a b. subst a b. split.
    + rewrite app_assoc, reached_ready_app, R. reflexivity.
    + cbn [perform fst snd]. repeat split.
  - intros t q f a b. subst b.
    rewrite simulate_presented_world, simulate_presented_monitor.
    cbn [fst snd presented_count last_sequence last_timestamp_ns
         vsync_count zero_copy_count presented_count_ last_sequence_
         last_timestamp_ns_ vsync_count_ zero_copy_count_].
    repeat (split; [reflexivity|]). split.
    + intros cb Hcb. apply dispatch_some. exact Hcb.
    + intros Hn. apply dispatch_none. exact Hn.
  - intros k a b. subst b.
    rewrite simulate_discarded_world, simulate_discarded_monitor.
    cbn [fst snd discarded_count discarded_count_].
    split; [reflexivity|]. split.
    + intros cb Hcb. apply dispatch_some. exact Hcb.
    + intros Hn. apply dispatch_none. exact Hn.
Qed.

Lemma ready_monitor_stays_ready_witness :
  reached_ready [Initialize 1 1 1]
    (construct (list PresentationFeedback) 0 0, []) = true /\
  reached_ready
    ([Initialize 1 1 1]
       ++ [SetCallback (Some log_event); Initialize 0 0 0;
           Ingest (Presented 100 1 1)])
    (construct (list PresentationFeedback) 0 0, []) = true.
Proof.
  split; [reflexivity|].
  exact (proj1 (ready_monitor_stays_ready _
                  (construct (list PresentationFeedback) 0 0, [])
                  [Initialize 1 1 1]
                  [SetCallback (Some log_event); Initialize 0 0 0;
                   Ingest (Presented 100 1 1)]
                  eq_refl)).
Defined.

(** ** The timer difference *)

Import Timer.

(** [end - start] on [uint64_t]: the plain difference when [start <= end],
    the difference plus 2^64 otherwise. *)
Lemma tick_diff_cases (start end_ : Z) :
  Cpp.is_uint64 start -> Cpp.is_uint64 end_ ->
  tick_diff start end_ =
  if start <=? end_ then end_ - start else end_ - start + 2 ^ 64.
Proof.
  unfold Cpp.is_uint64, tick_diff, Cpp.wrap64. intros Hs He.
  destruct (Z.leb_spec start end_) as [H|H].
  - apply Z.mod_small. lia.
  - symmetry. apply (Z.mod_unique (end_ - start) (2 ^ 64) (-1)); lia.
Qed.

(** *** Binary64 arithmetic on positive numbers

    [Zdigits2 m] is the number of binary digits of [m]. *)

Lemma digits2_pos_bounds (p : positive) :
  2 ^ (Z.pos (digits2_pos p) - 1) <= Z.pos p < 2 ^ Z.pos (digits2_pos p).
Proof.
  induction p as [p IH|p IH|]; cbn [digits2_pos].
  - rewrite Pos2Z.inj_succ, (Pos2Z.inj_xI p).
    replace (Z.succ (Z.pos (digits2_pos p)) - 1)
      with (Z.succ (Z.pos (digits2_pos p) - 1)) by lia.
    rewrite !Z.pow_succ_r by lia.
    set (a := 2 ^ (Z.pos (digits2_pos p) - 1)) in *.
    set (b := 2 ^ Z.pos (digits2_pos p)) in *. lia.
  - rewrite Pos2Z.inj_succ, (Pos2Z.inj_xO p).
    replace (Z.succ (Z.pos (digits2_pos p)) - 1)
      with (Z.succ (Z.pos (digits2_pos p) - 1)) by lia.
    rewrite !Z.pow_succ_r by lia.
    set (a := 2 ^ (Z.pos (digits2_pos p) - 1)) in *.
    set (b := 2 ^ Z.pos (digits2_pos p)) in *. lia.
  - cbn. lia.
Qed.

Lemma Zdigits2_bounds (m : Z) :
  0 < m -> 0 < Zdigits2 m /\ 2 ^ (Zdigits2 m - 1) <= m < 2 ^ Zdigits2 m.
Proof.
  destruct m as [|p|p]; try lia. intros _. cbn [Zdigits2].
  split; [lia | apply digits2_pos_bounds].
Qed.

Lemma Zdigits2_lower (m k : Z) : 0 <= k -> 2 ^ k <= m -> k < Zdigits2 m.
Proof.
  intros Hk H.
  assert (Hm : 0 < m) by (pose proof (Z.pow_pos_nonneg 2 k); lia).
  destruct (Zdigits2_bounds m Hm) as (Hd & _ & Hu).
  destruct (Z.lt_ge_cases k (Zdigits2 m)) as [|Hc]; [assumption|].
  pose proof (Z.pow_le_mono_r 2 (Zdigits2 m) k). lia.
Qed.

Lemma Zdigits2_upper (m k : Z) : 0 < m -> m < 2 ^ k -> Zdigits2 m <= k.
Proof.
  intros Hm H.
  destruct (Zdigits2_bounds m Hm) as (Hd & Hl & _).
  destruct (Z.le_gt_cases (Zdigits2 m) k) as [|Hc]; [assumption|].
  assert (0 <= k).
  { destruct (Z.lt_ge_cases k 0) as [Hn|]; [|assumption].
    rewrite Z.pow_neg_r in H by assumption. lia. }
  pose proof (Z.pow_le_mono_r 2 k (Zdigits2 m - 1)). lia.
Qed.












Lemma pos_iter_xO (p d : positive) :
  Z.pos (Pos.iter xO p d) = Z.pos p * 2 ^ Z.pos d.
Proof.
  induction d as [|d IH] using Pos.peano_ind.
  - cbn [Pos.iter]. rewrite (Pos2Z.inj_xO p). change (2 ^ 1) with 2. lia.
  - rewrite Pos.iter_succ, (Pos2Z.inj_xO (Pos.iter xO p d)), IH.
    rewrite Pos2Z.inj_succ, Z.pow_succ_r by lia. ring.
Qed.

Lemma Zdigits2_shift (m k : Z) :
  0 < m -> 0 <= k -> Zdigits2 (m * 2 ^ k) = Zdigits2 m + k.
Proof.
  intros Hm Hk. destruct (Zdigits2_bounds m Hm) as (Hd & Hl & Hu).
  pose proof (Z.pow_pos_nonneg 2 k ltac:(lia) Hk) as Hp.
  assert (L : 2 ^ (Zdigits2 m - 1 + k) <= m * 2 ^ k).
  { rewrite Z.pow_add_r by lia. apply Z.mul_le_mono_nonneg_r; lia. }
  assert (U : m * 2 ^ k < 2 ^ (Zdigits2 m + k)).
  { rewrite Z.pow_add_r by lia. apply Z.mul_lt_mono_pos_r; lia. }
  pose proof (Zdigits2_lower (m * 2 ^ k) (Zdigits2 m - 1 + k) ltac:(lia) L).
  pose proof (Zdigits2_upper (m * 2 ^ k) (Zdigits2 m + k) ltac:(nia) U).
  lia.
Qed.






(** * Further properties of the monitor *)

(** ** Flags *)

(** The monitor that [simulate_presented] leaves depends on the flags
    through bit 0 and bit 3 only: two calls whose flags agree on these two
    bits leave the same monitor, and masking the flags with [0x9] changes
    nothing. No other bit is read. *)
Theorem presented_reads_only_flag_bits_0_and_3 :
  forall (W : Type) (t q f : Z) (m : Monitor W) (w w' : W),
    (forall f' : Z,
        Z.testbit f 0 = Z.testbit f' 0 ->
        Z.testbit f 3 = Z.testbit f' 3 ->
        fst (simulate_presented t q f m w)
          = fst (simulate_presented t q f' m w')) /\
    fst (simulate_presented t q f m w)
      = fst (simulate_presented t q (Z.land f 9) m w') /\
    discarded_count (fst (simulate_presented t q f m w)) = discarded_count m.
Proof.
  intros W t q f m w w'.
  assert (G : forall f' : Z,
             Z.testbit f 0 = Z.testbit f' 0 ->
             Z.testbit f 3 = Z.testbit f' 3 ->
             fst (simulate_presented t q f m w)
               = fst (simulate_presented t q f' m w')).
  { intros f' H0 H3. rewrite !simulate_presented_monitor, H0, H3.
    reflexivity. }
  split; [exact G|]. split.
  - apply G; rewrite Z.land_spec.
    + change (Z.testbit 9 0) with true. rewrite andb_true_r. reflexivity.
    + change (Z.testbit 9 3) with true. rewrite andb_true_r. reflexivity.
  - rewrite simulate_presented_monitor. reflexivity.
Qed.

Lemma presented_reads_only_flag_bits_0_and_3_witness :
  Z.testbit 9 0 = Z.testbit 255 0 /\
  Z.testbit 9 3 = Z.testbit 255 3 /\
  fst (simulate_presented 100 1 9 (construct unit 0 0) tt)
    = fst (simulate_presented 100 1 255 (construct unit 0 0) tt).
Proof.
  split; [reflexivity|]. split; [reflexivity|].
  exact (proj1 (presented_reads_only_flag_bits_0_and_3 unit 100 1 9
                  (construct unit 0 0) tt tt) 255 eq_refl eq_refl).
Defined.

(** ** The callback and the monitor *)

Lemma ingest_pair (W : Type) (e : event) (s : Monitor W * W) :
  ingest e s = (fst (ingest e s), snd (ingest e s)).
Proof. apply surjective_pairing. Qed.

Lemma ingest_callback (W : Type) (e : event) (s : Monitor W * W) :
  callback_ (fst (ingest e s)) = callback_ (fst s).
Proof.
  destruct e as [t q f|k]; cbn [ingest].
  - rewrite simulate_presented_monitor. reflexivity.
  - reflexivity.
Qed.

(** One ingestion and a registration commute on the monitor. *)
Lemma ingest_set_callback (W : Type) (e : event)
    (cb : option (FeedbackCallback W)) (m : Monitor W) (w w' : W) :
  fst (ingest e (set_callback cb m, w))
    = set_callback cb (fst (ingest e (m, w'))).
Proof.
  destruct e as [t q f|k]; cbn [ingest fst snd].
  - rewrite !simulate_presented_monitor. reflexivity.
  - reflexivity.
Qed.

Lemma ingest_all_set_callback (W : Type) (es : list event) :
  forall (cb : option (FeedbackCallback W)) (m : Monitor W) (w w' : W),
    fst (ingest_all es (set_callback cb m, w))
      = set_callback cb (fst (ingest_all es (m, w'))).
Proof.
  induction es as [|e es IH]; intros cb m w w'.
  - reflexivity.
  - rewrite !ingest_all_cons.
    rewrite (ingest_pair W e (set_callback cb m, w)).
    rewrite (ingest_set_callback W e cb m w w').
    rewrite (ingest_pair W e (m, w')).
    apply IH.
Qed.

Lemma ingest_all_no_callback (W : Type) (es : list event) :
  forall (m : Monitor W) (w : W),
    callback_ m = None -> snd (ingest_all es (m, w)) = w.
Proof.
  induction es as [|e es IH]; intros m w H.
  - reflexivity.
  - rewrite ingest_all_cons, (ingest_pair W e (m, w)).
    assert (Hw : snd (ingest e (m, w)) = w).
    { destruct e as [t q f|k]; cbn [ingest fst snd].
      - rewrite simulate_presented_world. apply dispatch_none.
        rewrite simulate_presented_monitor. exact H.
      - rewrite simulate_discarded_world. apply dispatch_none. exact H. }
    rewrite Hw. apply IH.
    rewrite (ingest_callback W e (m, w)). exact H.
Qed.

(** ** Delivery *)

Lemma ingest_world_some (W : Type) (cb : FeedbackCallback W) (e : event)
    (m : Monitor W) (w : W) :
  callback_ m = Some cb ->
  snd (ingest e (m, w))
    = cb (event_feedback e) (stats (fst (ingest e (m, w)))) w.
Proof.
  intros H. destruct e as [t q f|k]; cbn [ingest fst snd event_feedback].
  - rewrite simulate_presented_world. apply dispatch_some.
    rewrite simulate_presented_monitor. exact H.
  - rewrite simulate_discarded_world. apply dispatch_some. exact H.
Qed.

Lemma ingest_all_log (es : list event) :
  forall (m : Monitor (list PresentationFeedback))
         (log : list PresentationFeedback),
    callback_ m = Some log_event ->
    snd (ingest_all es (m, log)) = log ++ map event_feedback es.
Proof.
  induction es as [|e es IH]; intros m log H.
  - cbn. rewrite app_nil_r. reflexivity.
  - rewrite ingest_all_cons, (ingest_pair _ e (m, log)).
    rewrite IH by (rewrite ingest_callback; exact H).
    rewrite (ingest_world_some _ log_event e m log H).
    unfold log_event. cbn [map]. rewrite <- app_assoc. reflexivity.
Qed.

(** With the logging callback registered, a sequence of ingestions appends
    to the log exactly one entry per call, in call order: the event built
    from the arguments with [presented = true] and the 60 Hz refresh for a
    [simulate_presented], an event with [presented = false] for a
    [simulate_discarded]. Entries already in the log are kept. *)
Theorem log_receives_one_event_per_call_in_order :
  forall (es : list event) (m : Monitor (list PresentationFeedback))
         (log : list PresentationFeedback),
    callback_ m = Some log_event ->
    snd (ingest_all es (m, log)) = log ++ map event_feedback es /\
    length (snd (ingest_all es (m, log))) = (length log + length es)%nat /\
    map presented (map event_feedback es) = map is_presented es.
Proof.
  intros es m log H.
  pose proof (ingest_all_log es m log H) as E.
  split; [exact E|]. split.
  - rewrite E, length_app, length_map. reflexivity.
  - rewrite map_map. apply map_ext. intros [t q f|k]; reflexivity.
Qed.

Lemma log_receives_one_event_per_call_in_order_witness :
  callback_ (set_callback (Some log_event) (construct _ 0 0))
    = Some log_event /\
  snd (ingest_all [Discarded (mkFeedback 5 6 7 8 true); Presented 100 1 1]
         (set_callback (Some log_event) (construct _ 0 0), []))
    = [mkFeedback 5 6 7 8 false; mkFeedback 100 1 16666666 1 true].
Proof.
  split; [reflexivity|].
  exact (proj1 (log_receives_one_event_per_call_in_order
                  [Discarded (mkFeedback 5 6 7 8 true); Presented 100 1 1]
                  (set_callback (Some log_event) (construct _ 0 0)) []
                  eq_refl)).
Defined.

(** ** The last presented event *)

(** After a sequence of ingestions [last_timestamp_ns()] and
    [last_sequence()] are the timestamp and the sequence number of the
    last presented event of the sequence, whatever followed it; when the
    sequence has no presented event they are what they were before. *)
Theorem last_fields_are_those_of_last_presented :
  forall (W : Type) (es : list event) (m : Monitor W) (w : W),
    match last_presented es with
    | Some (t, q) =>
        last_timestamp_ns (fst (ingest_all es (m, w))) = t /\
        last_sequence (fst (ingest_all es (m, w))) = q
    | None =>
        last_timestamp_ns (fst (ingest_all es (m, w))) = last_timestamp_ns m /\
        last_sequence (fst (ingest_all es (m, w))) = last_sequence m
    end.
Proof.
  intros W es. induction es as [|e es IH]; intros m w.
  - cbn. split; reflexivity.
  - rewrite ingest_all_cons, (ingest_pair W e (m, w)).
    specialize (IH (fst (ingest e (m, w))) (snd (ingest e (m, w)))).
    cbn [last_presented].
    destruct (last_presented es) as [[t q]|].
    + exact IH.
    + destruct IH as [I1 I2]. rewrite I1, I2.
      destruct e as [t q f|k]; cbn [ingest fst snd].
      * rewrite simulate_presented_monitor. split; reflexivity.
      * split; reflexivity.
Qed.

(** ** What the callback can read when it runs *)

Lemma ingest_all_callback (W : Type) (es : list event) :
  forall s : Monitor W * W,
    callback_ (fst (ingest_all es s)) = callback_ (fst s).
Proof.
  induction es as [|e es IH]; intros s.
  - reflexivity.
  - rewrite ingest_all_cons, IH. apply ingest_callback.
Qed.

Lemma record_call_snoc (es : list event) (e : event)
    (m : Monitor (list (PresentationFeedback * Stats)))
    (calls : list (PresentationFeedback * Stats)) :
  callback_ m = Some record_call ->
  snd (ingest_all (es ++ [e]) (m, calls))
    = snd (ingest_all es (m, calls))
        ++ [(event_feedback e,
             stats (fst (ingest_all (es ++ [e]) (m, calls))))].
Proof.
  intros H. rewrite ingest_all_snoc.
  rewrite (surjective_pairing (ingest_all es (m, calls))) at 1 2.
  rewrite (ingest_world_some _ record_call).
  - reflexivity.
  - rewrite ingest_all_callback. exact H.
Qed.

(** With a callback that records each invocation, a sequence of
    ingestions produces one record per call, and the record of the call
    number [i] holds the event of that call together with the accessor
    values of the monitor as they are after the calls up to and including
    number [i]: the callback sees the effect of its own event and of no
    later one. *)
Theorem callback_sees_monitor_after_its_own_event :
  forall (es : list event)
         (m : Monitor (list (PresentationFeedback * Stats))),
    callback_ m = Some record_call ->
    length (snd (ingest_all es (m, []))) = length es /\
    (forall (i : nat) (e : event),
        nth_error es i = Some e ->
        nth_error (snd (ingest_all es (m, []))) i
          = Some (event_feedback e,
                  stats (fst (ingest_all (firstn (S i) es) (m, []))))).
Proof.
  intros es m H. induction es as [|x es [Hlen Hnth]] using rev_ind.
  - split; [reflexivity|]. intros [|i] e Hi; discriminate Hi.
  - assert (L : length (snd (ingest_all (es ++ [x]) (m, [])))
                = length (es ++ [x])).
    { rewrite (record_call_snoc es x m [] H), !length_app, Hlen.
      reflexivity. }
    split; [exact L|].
    intros i e Hi.
    destruct (Nat.lt_ge_cases i (length es)) as [Hlt|Hge].
    + rewrite nth_error_app1 in Hi by exact Hlt.
      rewrite (record_call_snoc es x m [] H).
      rewrite nth_error_app1 by (rewrite Hlen; exact Hlt).
      rewrite (Hnth i e Hi).
      rewrite firstn_app.
      replace (S i - length es)%nat with 0%nat by lia.
      cbn [firstn]. rewrite app_nil_r. reflexivity.
    + assert (Hi' : (i < length (es ++ [x]))%nat)
        by (apply nth_error_Some; rewrite Hi; discriminate).
      rewrite length_app in Hi'. cbn [length] in Hi'.
      assert (i = length es) by lia. subst i.
      rewrite nth_error_app2, Nat.sub_diag in Hi by lia.
      cbn in Hi. injection Hi as <-.
      rewrite (record_call_snoc es x m [] H).
      rewrite nth_error_app2 by (rewrite Hlen; lia).
      rewrite Hlen, Nat.sub_diag. cbn [nth_error].
      rewrite firstn_all2 by (rewrite length_app; cbn; lia).
      reflexivity.
Qed.

Lemma callback_sees_monitor_after_its_own_event_witness :
  callback_ (set_callback (Some record_call) (construct _ 0 0))
    = Some record_call /\
  nth_error
    (snd (ingest_all [Presented 100 1 1; Presented 200 2 8]
            (set_callback (Some record_call) (construct _ 0 0), []))) 0
    = Some (mkFeedback 100 1 16666666 1 true, mkStats 1 0 1 0 1 100).
Proof.
  split; [reflexivity|].
  exact (proj2 (callback_sees_monitor_after_its_own_event
                  [Presented 100 1 1; Presented 200 2 8]
                  (set_callback (Some record_call) (construct _ 0 0))
                  eq_refl)
           0%nat (Presented 100 1 1) eq_refl).
Defined.

(** ** Relations between the counters *)

Lemma count_le (p q : event -> bool) (es : list event) :
  (forall e : event, p e = true -> q e = true) ->
  count p es <= count q es.
Proof.
  intros H. induction es as [|e es IH].
  - cbn. lia.
  - rewrite !count_cons. specialize (H e).
    destruct (p e), (q e); try lia; discriminate (H eq_refl).
Qed.

Lemma count_presented_discarded (es : list event) :
  count is_presented es + count is_discarded es = Z.of_nat (length es).
Proof.
  induction es as [|e es IH].
  - reflexivity.
  - rewrite !count_cons. cbn [length].
    destruct e as [t q f|k]; cbn [is_discarded is_presented negb]; lia.
Qed.

(** On a monitor used from its construction for fewer than 2^64
    ingestions, [vsync_count] and [zero_copy_count] never exceed
    [presented_count], and [presented_count + discarded_count] is the
    number of ingestions made. *)
Theorem counters_related :
  forall (W : Type) (u v : Z) (cb : option (FeedbackCallback W)) (w : W)
         (es : list event),
    Z.of_nat (length es) < 2 ^ 64 ->
    let m := fst (ingest_all es (set_callback cb (construct W u v), w)) in
    vsync_count m <= presented_count m /\
    zero_copy_count m <= presented_count m /\
    presented_count m + discarded_count m = Z.of_nat (length es).
Proof.
  intros W u v cb w es Hlen m. subst m.
  rewrite (counter_exact W presented_count is_presented
             (ingest_presented_count W)) by (cbn; lia).
  rewrite (counter_exact W discarded_count is_discarded
             (ingest_discarded_count W)) by (cbn; lia).
  rewrite (counter_exact W vsync_count is_vsync
             (ingest_vsync_count W)) by (cbn; lia).
  rewrite (counter_exact W zero_copy_count is_zero_copy
             (ingest_zero_copy_count W)) by (cbn; lia).
  cbn [fst presented_count discarded_count vsync_count zero_copy_count
       set_callback set_callback_ construct
       presented_count_ discarded_count_ vsync_count_ zero_copy_count_].
  pose proof (count_le is_vsync is_presented es) as Hv.
  pose proof (count_le is_zero_copy is_presented es) as Hz.
  pose proof (count_presented_discarded es) as Hs.
  split; [|split].
  - rewrite !Z.add_0_l. apply Hv. intros [t q f|k] H; [reflexivity|exact H].
  - rewrite !Z.add_0_l. apply Hz. intros [t q f|k] H; [reflexivity|exact H].
  - rewrite !Z.add_0_l. exact Hs.
Qed.

Lemma counters_related_witness :
  Z.of_nat (length [Presented 100 1 9; Discarded (mkFeedback 0 0 0 0 false);
                    Presented 200 2 2]) < 2 ^ 64 /\
  vsync_count
    (fst (ingest_all [Presented 100 1 9; Discarded (mkFeedback 0 0 0 0 false);
                      Presented 200 2 2]
            (set_callback None (construct unit 0 0), tt)))
  <= presented_count
    (fst (ingest_all [Presented 100 1 9; Discarded (mkFeedback 0 0 0 0 false);
                      Presented 200 2 2]
            (set_callback None (construct unit 0 0), tt))).
Proof.
  assert (H : Z.of_nat (length [Presented 100 1 9;
                                Discarded (mkFeedback 0 0 0 0 false);
                                Presented 200 2 2]) < 2 ^ 64)
    by (cbn; lia).
  split; [exact H|].
  exact (proj1 (counters_related unit 0 0 None tt
                  [Presented 100 1 9; Discarded (mkFeedback 0 0 0 0 false);
                   Presented 200 2 2] H)).
Defined.

(** ** initialize and the ingestions *)

Lemma perform_all_ingest (W : Type) (es : list event) :
  forall s : Monitor W * W,
    perform_all (map Ingest es) s = ingest_all es s.
Proof.
  induction es as [|e es IH]; intros s.
  - reflexivity.
  - cbn [map]. change (perform_all (Ingest e :: map Ingest es) s)
      with (perform_all (map Ingest es) (ingest e s)).
    rewrite IH. reflexivity.
Qed.

Lemma ingest_after_initialize (W : Type) (d s p : Z) (e : event)
    (m : Monitor W) (w : W) :
  ingest e (snd (initialize d s p m), w)
    = (snd (initialize d s p (fst (ingest e (m, w)))), snd (ingest e (m, w))).
Proof.
  destruct e as [t q f|k]; cbn [ingest fst snd].
  - unfold simulate_presented.
    destruct (Cpp.to_bool (Z.land f 1)), (Cpp.to_bool (Z.land f 8));
      reflexivity.
  - reflexivity.
Qed.

Lemma ingest_all_after_initialize (W : Type) (d s p : Z) (es : list event) :
  forall (m : Monitor W) (w : W),
    ingest_all es (snd (initialize d s p m), w)
      = (snd (initialize d s p (fst (ingest_all es (m, w)))),
         snd (ingest_all es (m, w))).
Proof.
  induction es as [|e es IH]; intros m w.
  - reflexivity.
  - rewrite !ingest_all_cons, ingest_after_initialize, IH.
    rewrite <- (ingest_pair W e (m, w)). reflexivity.
Qed.

(** [initialize] and the ingesting functions do not interfere: calling
    [initialize d s p] before a sequence of ingestions or after it gives
    the same monitor, the same deliveries to the callback and the same
    return value. Handles can be supplied or replaced at any point of a
    run without disturbing the statistics. *)
Theorem initialize_commutes_with_ingestion :
  forall (W : Type) (d s p : Z) (es : list event) (m : Monitor W) (w : W),
    perform_all (Initialize d s p :: map Ingest es) (m, w)
      = perform_all (map Ingest es ++ [Initialize d s p]) (m, w) /\
    fst (initialize d s p (fst (ingest_all es (m, w))))
      = fst (initialize d s p m) /\
    snd (ingest_all es (snd (initialize d s p m), w))
      = snd (ingest_all es (m, w)).
Proof.
  intros W d s p es m w. split; [|split].
  - unfold perform_all at 2. rewrite fold_left_app. cbn [fold_left].
    fold (perform_all (map Ingest es) (m, w)).
    change (perform_all (Initialize d s p :: map Ingest es) (m, w))
      with (perform_all (map Ingest es) (snd (initialize d s p m), w)).
    rewrite !perform_all_ingest, ingest_all_after_initialize.
    reflexivity.
  - reflexivity.
  - rewrite ingest_all_after_initialize. reflexivity.
Qed.

(** ** Range of the counters *)

Lemma perform_counters_in_range (W : Type) (o : operation W)
    (s : Monitor W * W) :
  counters_in_range (fst s) -> counters_in_range (fst (perform o s)).
Proof.
  intros (Hp & Hd & Hv & Hz).
  destruct o as [d f p|cb| |e]; cbn [perform fst snd].
  - exact (conj Hp (conj Hd (conj Hv Hz))).
  - exact (conj Hp (conj Hd (conj Hv Hz))).
  - exact (conj Hp (conj Hd (conj Hv Hz))).
  - destruct e as [t q fl|k]; cbn [ingest].
    + rewrite simulate_presented_monitor. unfold counters_in_range.
      cbn [presented_count_ discarded_count_ vsync_count_ zero_copy_count_].
      split; [apply wrap64_range|]. split; [exact Hd|].
      split.
      * destruct (Z.testbit fl 0); [apply wrap64_range | exact Hv].
      * destruct (Z.testbit fl 3); [apply wrap64_range | exact Hz].
    + rewrite simulate_discarded_monitor. unfold counters_in_range.
      cbn [presented_count_ discarded_count_ vsync_count_ zero_copy_count_].
      split; [exact Hp|]. split; [apply wrap64_range|].
      exact (conj Hv Hz).
Qed.

Lemma perform_all_counters_in_range (W : Type) (os : list (operation W)) :
  forall s : Monitor W * W,
    counters_in_range (fst s) -> counters_in_range (fst (perform_all os s)).
Proof.
  induction os as [|o os IH]; intros s H.
  - exact H.
  - change (perform_all (o :: os) s) with (perform_all os (perform o s)).
    apply IH, perform_counters_in_range, H.
Qed.

(** Whatever calls are made on a monitor after its construction, in any
    number and order, the four counters stay within [0, 2^64). They do not
    saturate: each of the four, when it holds 2^64 - 1, reads 0 after the
    next event of its kind (a presented event, a discarded event, a
    presented event with bit 0 set, a presented event with bit 3 set). *)
Theorem counters_stay_in_range_and_wrap :
  forall W : Type,
    (forall (os : list (operation W)) (u v : Z) (w : W),
        let m := fst (perform_all os (construct W u v, w)) in
        0 <= presented_count m < 2 ^ 64 /\
        0 <= discarded_count m < 2 ^ 64 /\
        0 <= vsync_count m < 2 ^ 64 /\
        0 <= zero_copy_count m < 2 ^ 64) /\
    (forall (m : Monitor W) (w : W) (t q f : Z),
        presented_count m = 2 ^ 64 - 1 ->
        presented_count (fst (simulate_presented t q f m w)) = 0) /\
    (forall (m : Monitor W) (w : W) (k : PresentationFeedback),
        discarded_count m = 2 ^ 64 - 1 ->
        discarded_count (fst (simulate_discarded k m w)) = 0) /\
    (forall (m : Monitor W) (w : W) (t q f : Z),
        vsync_count m = 2 ^ 64 - 1 -> Z.testbit f 0 = true ->
        vsync_count (fst (simulate_presented t q f m w)) = 0) /\
    (forall (m : Monitor W) (w : W) (t q f : Z),
        zero_copy_count m = 2 ^ 64 - 1 -> Z.testbit f 3 = true ->
        zero_copy_count (fst (simulate_presented t q f m w)) = 0).
Proof.
  intros W. split; [|split; [|split; [|split]]].
  - intros os u v w m. subst m.
    apply (perform_all_counters_in_range W os (construct W u v, w)).
    unfold counters_in_range, Cpp.is_uint64. cbn. lia.
  - intros m w t q f H. rewrite simulate_presented_monitor.
    unfold presented_count in *. cbn [presented_count_]. rewrite H.
    reflexivity.
  - intros m w k H. rewrite simulate_discarded_monitor.
    unfold discarded_count in *. cbn [discarded_count_]. rewrite H.
    reflexivity.
  - intros m w t q f H Hb. rewrite simulate_presented_monitor.
    unfold vsync_count in *. cbn [vsync_count_]. rewrite Hb, H.
    reflexivity.
  - intros m w t q f H Hb. rewrite simulate_presented_monitor.
    unfold zero_copy_count in *. cbn [zero_copy_count_]. rewrite Hb, H.
    reflexivity.
Qed.

Lemma counters_stay_in_range_and_wrap_witness :
  presented_count (mkMonitor (W := unit) 1 1 1 None (2 ^ 64 - 1) 0 0 0 0 0)
    = 2 ^ 64 - 1 /\
  presented_count
    (fst (simulate_presented 100 1 0
            (mkMonitor (W := unit) 1 1 1 None (2 ^ 64 - 1) 0 0 0 0 0) tt))
    = 0 /\
  vsync_count
    (mkMonitor (W := unit) 1 1 1 None (2 ^ 64 - 1) 0 (2 ^ 64 - 1) 5 0 0)
    = 2 ^ 64 - 1 /\
  Z.testbit 1 0 = true /\
  vsync_count
    (fst (simulate_presented 100 1 1
            (mkMonitor (W := unit) 1 1 1 None (2 ^ 64 - 1) 0 (2 ^ 64 - 1)
               5 0 0) tt))
    = 0 /\
  zero_copy_count
    (mkMonitor (W := unit) 1 1 1 None (2 ^ 64 - 1) 0 5 (2 ^ 64 - 1) 0 0)
    = 2 ^ 64 - 1 /\
  Z.testbit 8 3 = true /\
  zero_copy_count
    (fst (simulate_presented 100 1 8
            (mkMonitor (W := unit) 1 1 1 None (2 ^ 64 - 1) 0 5
               (2 ^ 64 - 1) 0 0) tt))
    = 0.
Proof.
  split; [reflexivity|]. split.
  { exact (proj1 (proj2 (counters_stay_in_range_and_wrap unit))
             (mkMonitor (W := unit) 1 1 1 None (2 ^ 64 - 1) 0 0 0 0 0)
             tt 100 1 0 eq_refl). }
  split; [reflexivity|]. split; [reflexivity|]. split.
  { exact (proj1 (proj2 (proj2 (proj2
             (counters_stay_in_range_and_wrap unit))))
             (mkMonitor (W := unit) 1 1 1 None (2 ^ 64 - 1) 0 (2 ^ 64 - 1)
                5 0 0)
             tt 100 1 1 eq_refl eq_refl). }
  split; [reflexivity|]. split; [reflexivity|].
  exact (proj2 (proj2 (proj2 (proj2
           (counters_stay_in_range_and_wrap unit))))
           (mkMonitor (W := unit) 1 1 1 None (2 ^ 64 - 1) 0 5
              (2 ^ 64 - 1) 0 0)
           tt 100 1 8 eq_refl eq_refl).
Defined.

(** ** Clearing the callback *)

Lemma ingest_all_app (W : Type) (xs ys : list event) (s : Monitor W * W) :
  ingest_all (xs ++ ys) s = ingest_all ys (ingest_all xs s).
Proof. unfold ingest_all. apply fold_left_app. Qed.

Lemma perform_all_app (W : Type) (xs ys : list (operation W))
    (s : Monitor W * W) :
  perform_all (xs ++ ys) s = perform_all ys (perform_all xs s).
Proof. unfold perform_all. apply fold_left_app. Qed.

(** Register the logging callback, ingest [es1], call [set_callback] with
    an empty function, ingest [es2]: the log holds the events of [es1]
    and none of [es2], while the counters and last-presented fields are
    those of the whole sequence [es1] followed by [es2]. Clearing the
    callback stops delivery, not counting. *)
Theorem cleared_callback_stops_delivery_only :
  forall (es1 es2 : list event) (m : Monitor (list PresentationFeedback))
         (log : list PresentationFeedback),
    let s := perform_all
               (SetCallback (Some log_event) :: map Ingest es1
                  ++ SetCallback None :: map Ingest es2) (m, log) in
    snd s = log ++ map event_feedback es1 /\
    callback_ (fst s) = None /\
    stats (fst s) = stats (fst (ingest_all (es1 ++ es2) (m, log))).
Proof.
  intros es1 es2 m log s. subst s.
  change (perform_all
            (SetCallback (Some log_event) :: map Ingest es1
               ++ SetCallback None :: map Ingest es2) (m, log))
    with (perform_all
            (map Ingest es1 ++ SetCallback None :: map Ingest es2)
            (set_callback (Some log_event) m, log)).
  rewrite perform_all_app, perform_all_ingest.
  set (r := ingest_all es1 (set_callback (Some log_event) m, log)).
  change (perform_all (SetCallback None :: map Ingest es2) r)
    with (perform_all (map Ingest es2) (set_callback None (fst r), snd r)).
  rewrite perform_all_ingest.
  assert (Hw : snd r = log ++ map event_feedback es1)
    by (apply ingest_all_log; reflexivity).
  assert (Hm : fst r = set_callback (Some log_event)
                         (fst (ingest_all es1 (m, log))))
    by apply ingest_all_set_callback.
  split; [|split].
  - rewrite ingest_all_no_callback by reflexivity. exact Hw.
  - rewrite ingest_all_callback. reflexivity.
  - set (m1 := fst (ingest_all es1 (m, log))) in *.
    set (w1 := snd (ingest_all es1 (m, log))).
    assert (A : fst (ingest_all es2 (set_callback None (fst r), snd r))
                = set_callback None (fst (ingest_all es2 (m1, w1)))).
    { rewrite (ingest_all_set_callback _ es2 None (fst r) (snd r) w1).
      rewrite Hm.
      rewrite (ingest_all_set_callback _ es2 (Some log_event) m1 w1 w1).
      reflexivity. }
    rewrite A, ingest_all_app.
    rewrite (surjective_pairing (ingest_all es1 (m, log))).
    reflexivity.
Qed.

(** ** The unset fields of a discarded event *)

(** What the storage of the local event of [simulate_discarded] held
    reaches the callback and nothing else: after any sequence of
    ingestions the monitor is the one that the same sequence leaves when
    every such storage holds zeros. *)
Theorem unset_fields_never_reach_the_monitor :
  forall (W : Type) (es : list event) (m : Monitor W) (w w' : W),
    fst (ingest_all es (m, w))
      = fst (ingest_all (map forget_stack es) (m, w')).
Proof.
  intros W es. induction es as [|e es IH]; intros m w w'.
  - reflexivity.
  - cbn [map]. rewrite !ingest_all_cons.
    rewrite (ingest_pair W e (m, w)).
    rewrite (ingest_pair W (forget_stack e) (m, w')).
    assert (E : fst (ingest e (m, w)) = fst (ingest (forget_stack e) (m, w'))).
    { destruct e as [t q f|k]; cbn [ingest forget_stack fst snd].
      - rewrite !simulate_presented_monitor. reflexivity.
      - reflexivity. }
    rewrite E. apply IH.
Qed.

(** * Further properties of the timer *)

(** ** The tick difference *)

(** The difference survives one wrap of the timer. If [d] ticks, fewer
    than 2^64, elapse after the reading [start], the later reading is
    [start + d] reduced modulo 2^64, possibly smaller than [start], and
    [get_timer_diff_ms] still computes [d / 1000.0]. *)
Theorem timer_diff_across_wrap :
  forall start d : Z,
    Cpp.is_uint64 start -> 0 <= d < 2 ^ 64 ->
    tick_diff start (Cpp.wrap64 (start + d)) = d /\
    get_timer_diff_ms start (Cpp.wrap64 (start + d))
      = SFdiv prec emax (uint64_to_double d) double_1000.
Proof.
  intros start d Hs Hd.
  assert (E : tick_diff start (Cpp.wrap64 (start + d)) = d).
  { unfold tick_diff, Cpp.wrap64. rewrite Zminus_mod_idemp_l.
    replace (start + d - start) with d by lia.
    apply Z.mod_small. exact Hd. }
  split; [exact E|]. unfold get_timer_diff_ms. rewrite E. reflexivity.
Qed.

Lemma timer_diff_across_wrap_witness :
  Cpp.is_uint64 (2 ^ 64 - 3) /\ 0 <= 5 < 2 ^ 64 /\
  Cpp.wrap64 (2 ^ 64 - 3 + 5) = 2 /\
  tick_diff (2 ^ 64 - 3) (Cpp.wrap64 (2 ^ 64 - 3 + 5)) = 5.
Proof.
  assert (Hs : Cpp.is_uint64 (2 ^ 64 - 3)) by (unfold Cpp.is_uint64; lia).
  assert (Hd : 0 <= 5 < 2 ^ 64) by lia.
  split; [exact Hs|]. split; [exact Hd|]. split; [reflexivity|].
  exact (proj1 (timer_diff_across_wrap (2 ^ 64 - 3) 5 Hs Hd)).
Defined.



(** Tick differences compose: the difference from [a] to [c] is the sum,
    in [uint64_t], of the differences from [a] to [b] and from [b] to [c],
    for any three readings; it is their plain sum when the readings are in
    order. *)
Theorem timer_diff_additive :
  forall a b c : Z,
    Cpp.is_uint64 a -> Cpp.is_uint64 b -> Cpp.is_uint64 c ->
    Cpp.wrap64 (tick_diff a b + tick_diff b c) = tick_diff a c /\
    (a <= b <= c -> tick_diff a c = tick_diff a b + tick_diff b c).
Proof.
  intros a b c Ha Hb Hc. split.
  - unfold tick_diff, Cpp.wrap64. rewrite <- Zplus_mod.
    f_equal. lia.
  - intros H.
    rewrite (tick_diff_cases a b Ha Hb), (tick_diff_cases b c Hb Hc),
      (tick_diff_cases a c Ha Hc).
    destruct (Z.leb_spec a b), (Z.leb_spec b c), (Z.leb_spec a c); lia.
Qed.

Lemma timer_diff_additive_witness :
  Cpp.is_uint64 10 /\ Cpp.is_uint64 25 /\ Cpp.is_uint64 70 /\
  10 <= 25 <= 70 /\
  tick_diff 10 70 = tick_diff 10 25 + tick_diff 25 70.
Proof.
  assert (Ha : Cpp.is_uint64 10) by (unfold Cpp.is_uint64; lia).
  assert (Hb : Cpp.is_uint64 25) by (unfold Cpp.is_uint64; lia).
  assert (Hc : Cpp.is_uint64 70) by (unfold Cpp.is_uint64; lia).
  assert (Ho : 10 <= 25 <= 70) by lia.
  split; [exact Ha|]. split; [exact Hb|]. split; [exact Hc|].
  split; [exact Ho|].
  exact (proj2 (timer_diff_additive 10 25 70 Ha Hb Hc) Ho).
Defined.

(** ** Precision of the conversion *)

(** A mantissa of full width needs no rounding. *)
Lemma binary_round_aux_canonical (pr em : Z) (s : bool) (mz : positive)
    (ez : Z) :
  fexp pr em (Z.pos (digits2_pos mz) + ez) = ez -> ez <= em - pr ->
  binary_round_aux pr em s (Z.pos mz) ez loc_Exact = S754_finite s mz ez.
Proof.
  intros Hf He. unfold binary_round_aux, shr_fexp.
  cbn [Zdigits2 shr_record_of_loc]. rewrite Hf, Z.sub_diag.
  cbn [shr shr_m loc_of_shr_record round_nearest_even Zdigits2
       shr_record_of_loc].
  rewrite Hf, Z.sub_diag. cbn [shr shr_m].
  apply Z.leb_le in He. rewrite He. reflexivity.
Qed.

(** Tick differences below 2^53 are converted to [double] without
    rounding: the [double] that [get_timer_diff_ms] divides by [1000.0]
    has exactly the value of the difference. The first difference that is
    rounded is 2^53 + 1, which becomes 2^53. *)
Theorem small_tick_differences_convert_exactly :
  (forall n : Z,
      0 < n < 2 ^ 53 ->
      exists (m : positive) (e : Z),
        uint64_to_double n = S754_finite false m e /\
        e <= 0 /\ Z.pos m = n * 2 ^ (- e)) /\
  uint64_to_double (2 ^ 53) = S754_finite false 4503599627370496 1 /\
  uint64_to_double (2 ^ 53 + 1) = uint64_to_double (2 ^ 53).
Proof.
  split; [|split; vm_compute; reflexivity].
  intros n [Hn Hu]. destruct n as [|p|p]; try lia.
  unfold uint64_to_double, binary_normalize, binary_round.
  destruct (Zdigits2_bounds (Z.pos p) Hn) as (Hd & _).
  pose proof (Zdigits2_upper (Z.pos p) 53 Hn Hu) as Hd53.
  cbn [Zdigits2] in Hd, Hd53.
  set (d := Z.pos (digits2_pos p)) in *.
  assert (Hf : fexp prec emax (d + 0) = d - 53).
  { unfold fexp, emin, prec, emax. lia. }
  rewrite Hf. unfold shl_align.
  destruct (d - 53 - 0) as [|k|k] eqn:Ek; try lia.
  - exists p, 0. split; [|split].
    + apply binary_round_aux_canonical.
      * fold d. unfold fexp, emin, prec, emax. lia.
      * unfold prec, emax. lia.
    + lia.
    + cbn. lia.
  - exists (Pos.iter xO p k), (d - 53). split; [|split].
    + apply binary_round_aux_canonical.
      * pose proof (Zdigits2_shift (Z.pos p) (Z.pos k) Hn ltac:(lia)) as Hs.
        rewrite <- pos_iter_xO in Hs. cbn [Zdigits2] in Hs. rewrite Hs.
        fold d. unfold fexp, emin, prec, emax. lia.
      * unfold prec, emax. lia.
    + lia.
    + rewrite pos_iter_xO. f_equal. f_equal. lia.
Qed.

Lemma small_tick_differences_convert_exactly_witness :
  0 < 1500 < 2 ^ 53 /\
  exists (m : positive) (e : Z),
    uint64_to_double 1500 = S754_finite false m e /\
    e <= 0 /\ Z.pos m = 1500 * 2 ^ (- e).
Proof.
  assert (H : 0 < 1500 < 2 ^ 53) by lia.
  split; [exact H|].
  exact (proj1 small_tick_differences_convert_exactly 1500 H).
Defined.

(** ** Reading the clock *)

(** For two readings of the clock taken in order (nanoseconds since the
    epoch, not negative), [get_hardware_timer] returns microsecond counts
    in the same order, and their tick difference is the number of whole
    microseconds elapsed between the readings, or that number plus one. *)
Theorem hardware_timer_measures_elapsed_microseconds :
  forall t1 t2 : Z,
    0 <= t1 -> t1 <= t2 -> t2 < 2 ^ 63 ->
    get_hardware_timer t1 = t1 / 1000 /\
    get_hardware_timer t2 = t2 / 1000 /\
    get_hardware_timer t1 <= get_hardware_timer t2 /\
    tick_diff (get_hardware_timer t1) (get_hardware_timer t2)
      = t2 / 1000 - t1 / 1000 /\
    (t2 - t1) / 1000
      <= tick_diff (get_hardware_timer t1) (get_hardware_timer t2)
      <= (t2 - t1) / 1000 + 1.
Proof.
  intros t1 t2 H0 H12 H2.
  assert (G : forall t : Z, 0 <= t < 2 ^ 63 ->
                get_hardware_timer t = t / 1000 /\ 0 <= t / 1000 < 2 ^ 64).
  { intros t Ht. unfold get_hardware_timer.
    rewrite Z.quot_div_nonneg by lia.
    assert (0 <= t / 1000 < 2 ^ 64).
    { split; [apply Z.div_pos; lia|].
      apply Z.div_lt_upper_bound; lia. }
    split; [apply wrap64_small; assumption | assumption]. }
  destruct (G t1 ltac:(lia)) as [E1 R1].
  destruct (G t2 ltac:(lia)) as [E2 R2].
  assert (M : t1 / 1000 <= t2 / 1000) by (apply Z.div_le_mono; lia).
  rewrite E1, E2.
  split; [reflexivity|]. split; [reflexivity|]. split; [exact M|].
  assert (D : tick_diff (t1 / 1000) (t2 / 1000) = t2 / 1000 - t1 / 1000).
  { rewrite tick_diff_cases by assumption.
    apply Z.leb_le in M. rewrite M. reflexivity. }
  rewrite D. split; [reflexivity|].
  pose proof (Z.div_mod t1 1000 ltac:(lia)) as A1.
  pose proof (Z.div_mod t2 1000 ltac:(lia)) as A2.
  pose proof (Z.mod_pos_bound t1 1000 ltac:(lia)) as B1.
  pose proof (Z.mod_pos_bound t2 1000 ltac:(lia)) as B2.
  pose proof (Z.div_mod (t2 - t1) 1000 ltac:(lia)) as A3.
  pose proof (Z.mod_pos_bound (t2 - t1) 1000 ltac:(lia)) as B3.
  lia.
Qed.

Lemma hardware_timer_measures_elapsed_microseconds_witness :
  0 <= 1999 /\ 1999 <= 3000 /\ 3000 < 2 ^ 63 /\
  tick_diff (get_hardware_timer 1999) (get_hardware_timer 3000) = 2 /\
  (3000 - 1999) / 1000 = 1.
Proof.
  assert (H0 : 0 <= 1999) by lia.
  assert (H1 : 1999 <= 3000) by lia.
  assert (H2 : 3000 < 2 ^ 63) by lia.
  split; [exact H0|]. split; [exact H1|]. split; [exact H2|].
  split; [|reflexivity].
  exact (proj1 (proj2 (proj2 (proj2
    (hardware_timer_measures_elapsed_microseconds 1999 3000 H0 H1 H2))))).
Defined.
